(** * BookWyrm notifications: a model of [bookwyrm/models/notification.py]

    The module reacts to persistence events (a favorite, status, boost,
    import job or report being saved or deleted) by creating, growing,
    shrinking and deleting rows of the [Notification] table.  The table is
    modelled as a finite map from primary keys to rows, the ORM calls as
    computations in a state-and-exception monad, and
    [transaction.atomic] as the combinator that restores the table when
    its body raises. *)

From stdpp Require Import base option list gmap sets strings.

Set Warnings "-register-all".
Open Scope string_scope.
Open Scope nat_scope.

(** ** Entities the module consumes *)

Record User := mkUser {
  user_pk : nat;
  local : bool;
  is_superuser : bool;
  user_permissions : list string;
}.

(** Model instances compare equal when their primary keys do. *)
Definition user_eqb (a b : User) : bool := bool_decide (user_pk a = user_pk b).

Inductive Status := mkStatus {
  status_pk : nat;
  status_user : User;
  reply_parent : option Status;
  mention_users : list User;
  deleted : bool;
}.

Record Favorite := mkFavorite { fav_user : User; fav_status : Status }.
Record Boost := mkBoost { boost_user : User; boosted_status : Status }.
Record ImportJob := mkImportJob { job_pk : nat; job_user : User; complete : bool }.
Record Report := mkReport { report_pk : nat }.

(** ** The notification table *)

Inductive NotificationType :=
  | FAVORITE | REPLY | MENTION | TAG | FOLLOW | FOLLOW_REQUEST | BOOST
  | IMPORT | ADD | REPORT | INVITE | ACCEPT | JOIN | LEAVE | REMOVE
  | GROUP_PRIVACY | GROUP_NAME | GROUP_DESCRIPTION.

Global Instance NotificationType_eq_dec : EqDecision NotificationType.
Proof. solve_decision. Defined.

Definition NotificationType_members : list NotificationType :=
  [ FAVORITE; REPLY; MENTION; TAG; FOLLOW; FOLLOW_REQUEST; BOOST; IMPORT;
    ADD; REPORT; INVITE; ACCEPT; JOIN; LEAVE; REMOVE; GROUP_PRIVACY;
    GROUP_NAME; GROUP_DESCRIPTION ].

(** The string a member is stored as: its name. *)
Definition value (t : NotificationType) : string :=
  match t with
  | FAVORITE => "FAVORITE" | REPLY => "REPLY" | MENTION => "MENTION"
  | TAG => "TAG" | FOLLOW => "FOLLOW" | FOLLOW_REQUEST => "FOLLOW_REQUEST"
  | BOOST => "BOOST" | IMPORT => "IMPORT" | ADD => "ADD" | REPORT => "REPORT"
  | INVITE => "INVITE" | ACCEPT => "ACCEPT" | JOIN => "JOIN"
  | LEAVE => "LEAVE" | REMOVE => "REMOVE" | GROUP_PRIVACY => "GROUP_PRIVACY"
  | GROUP_NAME => "GROUP_NAME" | GROUP_DESCRIPTION => "GROUP_DESCRIPTION"
  end.

Definition NotificationType_values : list string := value <$> NotificationType_members.

(** [Meta.constraints], the check [notification_type_valid]: a string can
    be stored in the column only if it is one of the values.  Rows hold the
    member itself, so every row of a table passes the check. *)
Definition notification_type_valid (s : string) : option NotificationType :=
  find (λ t, bool_decide (value t = s)) NotificationType_members.

(** One row: the foreign keys hold primary keys, the many-to-many fields
    hold the set of primary keys linked to the row. *)
Record Notification := mkNotification {
  user : nat;
  read : bool;
  notification_type : NotificationType;
  related_users : gset nat;
  related_groups : gset nat;
  related_status : option nat;
  related_import : option nat;
  related_list_items : gset nat;
  related_reports : gset nat;
}.

Abbreviation DB := (gmap nat Notification).

(** A model instance held by the running code: the row it was loaded from,
    its primary key, and the attribute [unread], which is not a column. *)
Record Instance := mkInstance {
  pk : nat;
  fields : Notification;
  unread : option bool;
}.

Definition set_unread (b : bool) (i : Instance) : Instance :=
  {| pk := pk i; fields := fields i; unread := Some b |}.

Definition with_related_users (f : gset nat → gset nat) (n : Notification) : Notification :=
  {| user := user n; read := read n; notification_type := notification_type n;
     related_users := f (related_users n); related_groups := related_groups n;
     related_status := related_status n; related_import := related_import n;
     related_list_items := related_list_items n;
     related_reports := related_reports n |}.

Definition with_related_reports (f : gset nat → gset nat) (n : Notification) : Notification :=
  {| user := user n; read := read n; notification_type := notification_type n;
     related_users := related_users n; related_groups := related_groups n;
     related_status := related_status n; related_import := related_import n;
     related_list_items := related_list_items n;
     related_reports := f (related_reports n) |}.

Definition link_user (ru : User) : Notification → Notification :=
  with_related_users (λ s, {[user_pk ru]} ∪ s).
Definition unlink_user (ru : User) : Notification → Notification :=
  with_related_users (λ s, s ∖ {[user_pk ru]}).
Definition link_report (r : Report) : Notification → Notification :=
  with_related_reports (λ s, {[report_pk r]} ∪ s).

(** The columns of [src] written over the row [n]; the link tables stay. *)
Definition with_columns (src n : Notification) : Notification :=
  {| user := user src; read := read src; notification_type := notification_type src;
     related_users := related_users n; related_groups := related_groups n;
     related_status := related_status src; related_import := related_import src;
     related_list_items := related_list_items n;
     related_reports := related_reports n |}.

(** The keyword arguments of a lookup: for each column, the value asked
    for, if any.  A foreign key may be asked to be null. *)
Record kwargs := mkKwargs {
  kw_notification_type : option string;
  kw_related_status : option (option nat);
  kw_related_import : option (option nat);
  kw_read : option bool;
}.

Definition kw_ok {A} `{EqDecision A} (want : option A) (have : A) : bool :=
  match want with
  | None => true
  | Some v => bool_decide (have = v)
  end.

(** [filter(user=u, **kw)] as a predicate on rows. *)
Definition matches (u : User) (kw : kwargs) (n : Notification) : bool :=
  bool_decide (user n = user_pk u)
  && kw_ok (kw_notification_type kw) (value (notification_type n))
  && kw_ok (kw_related_status kw) (related_status n)
  && kw_ok (kw_related_import kw) (related_import n)
  && kw_ok (kw_read kw) (read n).

(** The row [create(user=u, **kw)] inserts once its type [t] has passed
    the check: columns that are not given take the field defaults. *)
Definition new_row (u : User) (t : NotificationType) (kw : kwargs) : Notification :=
  {| user := user_pk u;
     read := default false (kw_read kw);
     notification_type := t;
     related_users := ∅; related_groups := ∅;
     related_status := default None (kw_related_status kw);
     related_import := default None (kw_related_import kw);
     related_list_items := ∅; related_reports := ∅ |}.

(** [objects.filter(...)] *)
Definition objects_filter (p : Notification → bool) (db : DB) : DB :=
  filter (λ kn, p kn.2 = true) db.

(** A row with no links, for a key that has no row yet. *)
Definition empty_links : Notification :=
  mkNotification 0 false FAVORITE ∅ ∅ None None ∅ ∅.

(** The key the database gives to an inserted row. *)
Definition next_pk (db : DB) : nat := S (max_list (elements (dom db))).

(** ** Computations over the table *)

Inductive exn :=
  | DoesNotExist
  | MultipleObjectsReturned
  | IntegrityError
  | DatabaseError.

Inductive outcome (A : Type) :=
  | Ok (a : A)
  | Raise (e : exn).
Arguments Ok {A} a.
Arguments Raise {A} e.

(** The statements the module sends to the database. *)
Inductive site :=
  | SGet | SCreate | SAdd | SSave | SRemove | SExists | SDelete
  | SFilterDelete | SAddReport | SUsers.

Definition M (A : Type) : Type := DB → DB * outcome A.

Global Instance M_ret : MRet M := λ A a db, (db, Ok a).
Global Instance M_bind : MBind M := λ A B f m db,
  match m db with
  | (db', Ok a) => f a db'
  | (db', Raise e) => (db', Raise e)
  end.

Definition raise {A} (e : exn) : M A := λ db, (db, Raise e).
Definition get_db : M DB := λ db, (db, Ok db).
Definition put_db (db' : DB) : M unit := λ _, (db', Ok ()).

(** [try: m except e: h e], where [h] names the exceptions it catches. *)
Definition try_except {A} (m : M A) (h : exn → option (M A)) : M A := λ db,
  match m db with
  | (db', Raise e) =>
      match h e with
      | Some k => k db'
      | None => (db', Raise e)
      end
  | r => r
  end.

(** [transaction.atomic]: an exception leaving the body rolls the table
    back to what it was on entry, and goes on to the caller. *)
Definition atomic {A} (m : M A) : M A := λ db,
  match m db with
  | (db', Ok a) => (db', Ok a)
  | (_, Raise e) => (db, Raise e)
  end.

Fixpoint for_each {A} (l : list A) (body : A → M unit) : M unit :=
  match l with
  | [] => mret ()
  | x :: l' => body x ;; for_each l' body
  end.

Section Model.

(** Which statements the database refuses with an error of its own. *)
Variable fails : site → bool.

Definition statement (s : site) : M unit := λ db,
  if fails s then (db, Raise DatabaseError) else (db, Ok ()).

(** [QuerySet.get()] *)
Definition objects_get (p : Notification → bool) : M Instance :=
  statement SGet ;;
  db ← get_db;
  match map_to_list (objects_filter p db) with
  | [] => raise DoesNotExist
  | [(k, n)] => mret (mkInstance k n None)
  | _ => raise MultipleObjectsReturned
  end.

(** [objects.create(user=u, **kw)]; a type that is not given is the empty
    string. *)
Definition objects_create (u : User) (kw : kwargs) : M Instance :=
  statement SCreate ;;
  db ← get_db;
  match notification_type_valid (default "" (kw_notification_type kw)) with
  | Some t =>
      put_db (<[next_pk db := new_row u t kw]> db) ;;
      mret (mkInstance (next_pk db) (new_row u t kw) None)
  | None => raise IntegrityError
  end.

(** [objects.get_or_create(user=u, **kw)] *)
Definition get_or_create (u : User) (kw : kwargs) : M (Instance * bool) :=
  try_except (i ← objects_get (matches u kw); mret (i, false))
    (λ e, match e with
          | DoesNotExist => Some (
              try_except (i ← atomic (objects_create u kw); mret (i, true))
                (λ e', match e' with
                       | IntegrityError => Some (
                           try_except (i ← objects_get (matches u kw); mret (i, false))
                             (λ e'', match e'' with
                                     | DoesNotExist => Some (raise IntegrityError)
                                     | _ => None
                                     end))
                       | _ => None
                       end))
          | _ => None
          end).

(** [instance.related_users.add(ru)] *)
Definition related_users_add (i : Instance) (ru : User) : M unit :=
  statement SAdd ;;
  db ← get_db;
  match db !! pk i with
  | Some n => put_db (<[pk i := link_user ru n]> db)
  | None => raise IntegrityError
  end.

(** [instance.related_users.remove(ru)] *)
Definition related_users_remove (i : Instance) (ru : User) : M unit :=
  statement SRemove ;;
  db ← get_db;
  put_db (alter (unlink_user ru) (pk i) db).

(** [instance.related_users.exists()] *)
Definition related_users_exists (i : Instance) : M bool :=
  statement SExists ;;
  db ← get_db;
  mret (match db !! pk i with
        | Some n => negb (bool_decide (related_users n = ∅))
        | None => false
        end).

(** [instance.related_reports.add(r)] *)
Definition related_reports_add (i : Instance) (r : Report) : M unit :=
  statement SAddReport ;;
  db ← get_db;
  match db !! pk i with
  | Some n => put_db (<[pk i := link_report r n]> db)
  | None => raise IntegrityError
  end.

(** [instance.save()]: the columns held by the instance are written over
    its row, or inserted under its key if the row is gone; the link tables
    are not touched. *)
Definition save (i : Instance) : M unit :=
  statement SSave ;;
  db ← get_db;
  match db !! pk i with
  | Some n => put_db (<[pk i := with_columns (fields i) n]> db)
  | None => put_db (<[pk i := with_columns (fields i) empty_links]> db)
  end.

(** [instance.delete()] *)
Definition delete_instance (i : Instance) : M unit :=
  statement SDelete ;;
  db ← get_db;
  put_db (delete (pk i) db).

(** [objects.filter(...).delete()] *)
Definition filter_delete (p : Notification → bool) : M unit :=
  statement SFilterDelete ;;
  db ← get_db;
  put_db (objects_filter (λ n, negb (p n)) db).

(** *** [Notification.notify] and [Notification.unnotify] *)

Definition notify (u ru : User) (kw : kwargs) : M unit :=
  atomic (
    if negb (local u) || user_eqb u ru then mret ()
    else
      '(notification, _) ← get_or_create u kw;
      related_users_add notification ru ;;
      let notification := set_unread true notification in
      save notification).

Definition unnotify (u ru : User) (kw : kwargs) : M unit :=
  found ← try_except (i ← objects_get (matches u kw); mret (Some i))
             (λ e, match e with
                   | DoesNotExist => Some (mret None)
                   | _ => None
                   end);
  match found with
  | None => mret ()
  | Some notification =>
      related_users_remove notification ru ;;
      more ← related_users_exists notification;
      if negb more then delete_instance notification else mret ()
  end.

(** *** The reactions to persistence events *)

Definition status_kw (ty : string) (s : Status) : kwargs :=
  {| kw_notification_type := Some ty;
     kw_related_status := Some (Some (status_pk s));
     kw_related_import := None;
     kw_read := None |}.

(** [post_save] of a [Favorite] *)
Definition notify_on_fav (instance : Favorite) : M unit :=
  atomic (
    notify (status_user (fav_status instance)) (fav_user instance)
      (status_kw "FAVORITE" (fav_status instance))).

(** [post_delete] of a [Favorite] *)
Definition notify_on_unfav (instance : Favorite) : M unit :=
  if negb (local (status_user (fav_status instance))) then mret ()
  else
    unnotify (status_user (fav_status instance)) (fav_user instance)
      (status_kw "FAVORITE" (fav_status instance)).

Definition is_reply_parent_user (instance : Status) (u : User) : bool :=
  match reply_parent instance with
  | Some parent => user_eqb u (status_user parent)
  | None => false
  end.

(** [post_save] of any model; [sender_is_status] is
    [issubclass(sender, Status)]. *)
Definition notify_user_on_mention (sender_is_status : bool) (instance : Status) : M unit :=
  atomic (
    if negb sender_is_status then mret ()
    else if deleted instance then
      filter_delete (λ n, bool_decide (related_status n = Some (status_pk instance)))
    else
      match reply_parent instance with
      | Some parent =>
          if negb (user_eqb (status_user parent) (status_user instance))
             && local (status_user parent)
          then notify (status_user parent) (status_user instance)
                 (status_kw "REPLY" instance)
          else mret ()
      | None => mret ()
      end ;;
      for_each (mention_users instance) (λ mention_user,
        if negb (local mention_user) || is_reply_parent_user instance mention_user
        then mret ()
        else notify mention_user (status_user instance)
               (status_kw "MENTION" instance))).

(** [post_save] of a [Boost] *)
Definition notify_user_on_boost (instance : Boost) : M unit :=
  atomic (
    if negb (local (status_user (boosted_status instance)))
       || user_eqb (status_user (boosted_status instance)) (boost_user instance)
    then mret ()
    else
      notify (status_user (boosted_status instance)) (boost_user instance)
        (status_kw "BOOST" (boosted_status instance))).

(** [post_delete] of a [Boost] *)
Definition notify_user_on_unboost (instance : Boost) : M unit :=
  unnotify (status_user (boosted_status instance)) (boost_user instance)
    (status_kw "BOOST" (boosted_status instance)).

Definition import_kw (instance : ImportJob) : kwargs :=
  {| kw_notification_type := Some "IMPORT";
     kw_related_status := None;
     kw_related_import := Some (Some (job_pk instance));
     kw_read := None |}.

(** [post_save] of an [ImportJob]; [update_fields] is [None] when the
    save names no fields. *)
Definition notify_user_on_import_complete
    (instance : ImportJob) (update_fields : option (list string)) : M unit :=
  let update_fields := default [] update_fields in
  if negb (complete instance) || negb (bool_decide ("complete" ∈ update_fields))
  then mret ()
  else
    objects_create (job_user instance) (import_kw instance) ;;
    mret ().

(** The rows of [User.objects.filter(Q(user_permissions__name__in=[...])
    | Q(is_superuser=True))]: the filter joins each user with their
    permissions, so a user comes once for each permission that passes. *)
Definition admins_query (users : list User) : list User :=
  u ← users;
  match user_permissions u with
  | [] => if is_superuser u then [u] else []
  | perms =>
      p ← perms;
      if bool_decide (p ∈ ["moderate_user"; "moderate_post"]) || is_superuser u
      then [u] else []
  end.

Definition report_kw : kwargs :=
  {| kw_notification_type := Some "REPORT";
     kw_related_status := None;
     kw_related_import := None;
     kw_read := None |}.

(** [post_save] of a [Report]; [users] is the user table. *)
Definition notify_admins_on_report (users : list User) (instance : Report) : M unit :=
  atomic (
    statement SUsers ;;
    let admins := admins_query users in
    for_each admins (λ admin,
      '(notification, _) ← get_or_create admin report_kw;
      related_reports_add notification instance)).

(** *** The module as a transition system *)

Inductive event :=
  | FavoriteSaved (instance : Favorite)
  | FavoriteDeleted (instance : Favorite)
  | ModelSaved (sender_is_status : bool) (instance : Status)
  | BoostSaved (instance : Boost)
  | BoostDeleted (instance : Boost)
  | ImportJobSaved (instance : ImportJob) (update_fields : option (list string))
  | ReportSaved (users : list User) (instance : Report).

Definition react (e : event) : M unit :=
  match e with
  | FavoriteSaved i => notify_on_fav i
  | FavoriteDeleted i => notify_on_unfav i
  | ModelSaved b i => notify_user_on_mention b i
  | BoostSaved i => notify_user_on_boost i
  | BoostDeleted i => notify_user_on_unboost i
  | ImportJobSaved i uf => notify_user_on_import_complete i uf
  | ReportSaved us i => notify_admins_on_report us i
  end.

End Model.

Definition no_faults : site → bool := λ _, false.

(** The tables the reactions can produce from the empty one, whatever the
    database refuses on the way. *)
Inductive reachable : DB → Prop :=
  | reachable_empty : reachable ∅
  | reachable_step fails e db :
      reachable db → reachable (react fails e db).1.

(** ** The vocabulary of the claims *)

(** An operation that leaves the table as it found it whenever it raises,
    whichever statements the database refuses. *)
Definition rolls_back (op : (site → bool) → M unit) : Prop :=
  ∀ fails db db' e, op fails db = (db', Raise e) → db' = db.

(** [no_gain P db db']: every row of [db'] that satisfies [P] is a row of
    [db], unchanged.  So between [db] and [db'] no row satisfying [P] was
    created and none was modified. *)
Definition no_gain (P : Notification → Prop) (db db' : DB) : Prop :=
  ∀ k n, db' !! k = Some n → P n → db !! k = Some n.

(** [keeps I] relates a table to the tables that satisfy [I] if it does. *)
Definition keeps (I : DB → Prop) (db db' : DB) : Prop := I db → I db'.

(** At most one row for each (user, type, related status, related import)
    whose type is in [T]. *)
Definition one_record_per_combination (T : NotificationType → Prop) (db : DB) : Prop :=
  ∀ k1 k2 n1 n2,
    db !! k1 = Some n1 → db !! k2 = Some n2 →
    T (notification_type n1) →
    user n1 = user n2 → notification_type n1 = notification_type n2 →
    related_status n1 = related_status n2 →
    related_import n1 = related_import n2 →
    k1 = k2.

Definition same_key (n1 n2 : Notification) : Prop :=
  user n1 = user n2 ∧ notification_type n1 = notification_type n2
  ∧ related_status n1 = related_status n2.

(** The invariant of the tables the reactions build: rows that are not
    IMPORT rows differ in user, type or related status, and REPORT rows
    have no related status. *)
Definition keyed (db : DB) : Prop :=
  (∀ k1 k2 n1 n2, db !! k1 = Some n1 → db !! k2 = Some n2 →
     notification_type n1 ≠ IMPORT → same_key n1 n2 → k1 = k2)
  ∧ (∀ k n, db !! k = Some n → notification_type n = REPORT → related_status n = None).

(** Moderators and superusers. *)
Definition is_admin (u : User) : Prop :=
  (∃ p, p ∈ user_permissions u ∧ p ∈ ["moderate_user"; "moderate_post"])
  ∨ is_superuser u = true.

(** The row [n] under key [k] is the row that was there in [db] with
    the report linked, or the row [create] makes for [u] with the report
    linked. *)
Definition fetched_or_created (r : Report) (u : User) (db : DB) (k : nat)
    (n : Notification) : Prop :=
  match db !! k with
  | Some n0 => n = link_report r n0
  | None => n = link_report r (new_row u REPORT report_kw)
  end.

(** The user [u] has at most one REPORT notification. *)
Definition one_report_row (u : User) (db : DB) : Prop :=
  ∀ k1 k2 n1 n2, db !! k1 = Some n1 → db !! k2 = Some n2 →
    user n1 = user_pk u → notification_type n1 = REPORT →
    user n2 = user_pk u → notification_type n2 = REPORT →
    k1 = k2.

(** The user [u] has more than one REPORT notification. *)
Definition several_report_rows (u : User) (db : DB) : Prop :=
  ∃ k1 k2 n1 n2, k1 ≠ k2 ∧ db !! k1 = Some n1 ∧ db !! k2 = Some n2
    ∧ user n1 = user_pk u ∧ notification_type n1 = REPORT
    ∧ user n2 = user_pk u ∧ notification_type n2 = REPORT.

(** The rows that are not REPORT rows of an admin among [users]. *)
Definition not_admin_report (users : list User) (n : Notification) : Prop :=
  notification_type n ≠ REPORT
  ∨ ∀ u, u ∈ users → is_admin u → user n ≠ user_pk u.

(** C8 as it is stated, for the table [db] the report is saved on. *)
Definition report_claim (users : list User) (r : Report) (db : DB) : Prop :=
  let db' := (notify_admins_on_report no_faults users r db).1 in
  (∀ u, u ∈ users → is_admin u →
     ∃ k n, db' !! k = Some n ∧ user n = user_pk u
            ∧ notification_type n = REPORT ∧ report_pk r ∈ related_reports n)
  ∧ no_gain (not_admin_report users) db db'.

(** C5 as it is stated: whenever some notification matches, the related
    user is removed from it, and it is deleted exactly when no related user
    remains. *)
Definition unnotify_claim (u ru : User) (kw : kwargs) (db : DB) : Prop :=
  ∀ k n, db !! k = Some n → matches u kw n = true →
    let db' := (unnotify no_faults u ru kw db).1 in
    if decide (related_users n ∖ {[user_pk ru]} = ∅)
    then db' !! k = None
    else db' !! k = Some (unlink_user ru n).

(** C3 as it is stated. *)
Definition notify_claim (u ru : User) (kw : kwargs) (db : DB) : Prop :=
  let db' := (notify no_faults u ru kw db).1 in
  if negb (local u) || user_eqb u ru
  then db' = db
  else ∃ k n, db' !! k = Some n ∧ matches u kw n = true
              ∧ user_pk ru ∈ related_users n.

(** The user [u] has a notification of type [t] for the status [s] that
    lists [ru] among its related users. *)
Definition has_row (db : DB) (u : nat) (t : NotificationType) (s ru : nat) : Prop :=
  ∃ k n, db !! k = Some n ∧ user n = u ∧ notification_type n = t
         ∧ related_status n = Some s ∧ ru ∈ related_users n.

(** Every row of [db] is still in [db'], for the same user, type and
    status, with at least the related users it had. *)
Definition grows (db db' : DB) : Prop :=
  ∀ k n, db !! k = Some n →
    ∃ n', db' !! k = Some n' ∧ user n' = user n
          ∧ notification_type n' = notification_type n
          ∧ related_status n' = related_status n
          ∧ related_users n ⊆ related_users n'.

(** The types of the notifications that are about a status. *)
Definition status_type (t : NotificationType) : Prop :=
  t = FAVORITE ∨ t = REPLY ∨ t = MENTION ∨ t = BOOST.

(** The links a notification of each type carries when the reactions of
    this module made it. *)
Definition links_by_type (n : Notification) : Prop :=
  match notification_type n with
  | FAVORITE | REPLY | MENTION | BOOST =>
      related_status n ≠ None ∧ related_import n = None ∧ related_reports n = ∅
  | IMPORT =>
      related_status n = None ∧ related_import n ≠ None
      ∧ related_users n = ∅ ∧ related_reports n = ∅
  | REPORT =>
      related_status n = None ∧ related_import n = None ∧ related_users n = ∅
  | _ => False
  end.

Definition well_shaped (n : Notification) : Prop :=
  read n = false ∧ related_groups n = ∅ ∧ related_list_items n = ∅
  ∧ (user n ∉ related_users n) ∧ links_by_type n.

Definition all_rows (Q : Notification → Prop) (db : DB) : Prop :=
  ∀ k n, db !! k = Some n → Q n.

(** ** Concrete data *)

Definition alice : User := mkUser 1 true false [].
Definition bob : User := mkUser 2 true false ["moderate_post"].
Definition carol : User := mkUser 3 false false [].
Definition root : User := mkUser 4 true true ["moderate_user"; "moderate_post"; "edit_book"].

Definition st1 : Status := mkStatus 10 alice None [] false.
Definition st2 : Status := mkStatus 11 alice None [] false.
Definition job1 : ImportJob := mkImportJob 7 alice true.

(** The table after a list of events, none of them hit by a database error. *)
Definition run (es : list event) (db : DB) : DB :=
  foldl (λ d e, (react no_faults e d).1) db es.

Definition type_kw (ty : string) : kwargs :=
  {| kw_notification_type := Some ty; kw_related_status := None;
     kw_related_import := None; kw_read := None |}.

(** [bob] has liked one status of [alice]. *)
Definition one_fav : DB := run [FavoriteSaved (mkFavorite bob st1)] ∅.

(** [bob] has liked two statuses of [alice]. *)
Definition two_favs : DB :=
  run [FavoriteSaved (mkFavorite bob st1); FavoriteSaved (mkFavorite bob st2)] ∅.

Definition read_fav : DB :=
  {[1 := mkNotification 1 true FAVORITE {[2]} ∅ (Some 10) None ∅ ∅]}.

Definition two_imports : DB :=
  run [ImportJobSaved job1 (Some ["complete"]);
       ImportJobSaved job1 (Some ["complete"])] ∅.

Definition fav_and_report : DB :=
  run [FavoriteSaved (mkFavorite bob st1); ReportSaved [alice; bob; carol; root] (mkReport 5)] ∅.

(** [bob], a moderator, has two REPORT notifications; nothing in the
    table's constraints forbids it. *)
Definition two_reports : DB :=
  <[2 := mkNotification 2 false REPORT ∅ ∅ None None ∅ {[6]}]>
    {[1 := mkNotification 2 false REPORT ∅ ∅ None None ∅ {[5]}]}.

(** [bob] has one REPORT notification and has read it. *)
Definition read_report : DB :=
  {[1 := mkNotification 2 true REPORT ∅ ∅ None None ∅ {[5]}]}.

Definition st1_deleted : Status :=
  mkStatus 10 alice (Some st2) [bob; root] true.

(** [bob] replies to a status of [alice] and mentions [alice], [carol],
    who is not local, and [root]. *)
Definition reply1 : Status := mkStatus 20 bob (Some st1) [alice; carol; root] false.

(** [alice] replies to a status of their own and mentions [bob]. *)
Definition own_reply : Status := mkStatus 21 alice (Some st1) [bob] false.

(** The database refuses the [delete] statement and nothing else. *)
Definition delete_fails : site → bool :=
  λ s, match s with SDelete => true | _ => false end.

(** The database refuses the [save] statement and nothing else. *)
Definition save_fails : site → bool :=
  λ s, match s with SSave => true | _ => false end.

(** ** Facts about the table and the primitives *)

Lemma value_valid t : notification_type_valid (value t) = Some t.
Proof. by destruct t. Qed.

Lemma valid_value s t : notification_type_valid s = Some t → value t = s.
Proof.
  unfold notification_type_valid. intros H.
  apply find_some in H as [_ H]. by apply bool_decide_eq_true in H.
Qed.

Lemma value_inj t1 t2 : value t1 = value t2 → t1 = t2.
Proof.
  intros H. pose proof (value_valid t1) as H1. rewrite H, value_valid in H1.
  congruence.
Qed.

Lemma next_pk_fresh (db : DB) : db !! next_pk db = None.
Proof.
  apply not_elem_of_dom. intros Hin.
  apply elem_of_elements, max_list_elem_of_le in Hin.
  unfold next_pk in Hin. lia.
Qed.

Lemma to_list_singleton (m : DB) k n : map_to_list m = [(k, n)] → m = {[k := n]}.
Proof.
  intros H. apply map_to_list_inj. by rewrite H, map_to_list_singleton.
Qed.

Lemma objects_filter_lookup p (db : DB) k n :
  objects_filter p db !! k = Some n ↔ db !! k = Some n ∧ p n = true.
Proof. unfold objects_filter. by rewrite map_lookup_filter_Some. Qed.

Lemma objects_filter_empty p (db : DB) :
  objects_filter p db = ∅ ↔ ∀ k n, db !! k = Some n → p n = false.
Proof.
  rewrite map_empty. split.
  - intros H k n Hk. destruct (p n) eqn:Hp; [| done].
    specialize (H k). by rewrite (proj2 (objects_filter_lookup p db k n)) in H.
  - intros H k. destruct (objects_filter p db !! k) as [n|] eqn:Hk; [| done].
    apply objects_filter_lookup in Hk as [Hk Hp]. by rewrite (H k n Hk) in Hp.
Qed.

Lemma objects_filter_insert p (db : DB) k n :
  p n = true → objects_filter p (<[k := n]> db) = <[k := n]> (objects_filter p db).
Proof. intros. unfold objects_filter. by rewrite map_filter_insert_True. Qed.

Lemma objects_filter_singleton_lookup p (db : DB) k n :
  objects_filter p db = {[k := n]} → db !! k = Some n ∧ p n = true.
Proof.
  intros H. apply objects_filter_lookup. rewrite H. apply lookup_singleton_eq.
Qed.


Lemma with_columns_links f n : with_columns n (with_related_users f n) = with_related_users f n.
Proof. by destruct n. Qed.

Lemma matches_links u kw f n : matches u kw (with_related_users f n) = matches u kw n.
Proof. by destruct n. Qed.

Lemma matches_new_row u kw t :
  notification_type_valid (default "" (kw_notification_type kw)) = Some t →
  matches u kw (new_row u t kw) = true.
Proof.
  intros Ht. apply valid_value in Ht.
  destruct kw as [[ty|] [st|] [im|] [rd|]]; unfold matches, kw_ok; simpl in *;
    repeat (rewrite bool_decide_eq_true_2 by done); done.
Qed.

(** ** What the operations compute

    Each operation is rewritten as a case analysis on the statements that
    fail and on the rows the lookup finds. *)

Ltac unfold_M :=
  unfold mbind, mret, M_bind, M_ret, raise, get_db, put_db, statement,
    try_except, atomic in *.

Section Equations.

Variable fails : site → bool.

Lemma objects_get_eq p db :
  objects_get fails p db =
    (db, if fails SGet then Raise DatabaseError
         else match map_to_list (objects_filter p db) with
              | [] => Raise DoesNotExist
              | [(k, n)] => Ok (mkInstance k n None)
              | _ => Raise MultipleObjectsReturned
              end).
Proof.
  unfold objects_get. unfold_M. destruct (fails SGet); [done |].
  by destruct (map_to_list (objects_filter p db)) as [|[k n] [|]].
Qed.

Lemma get_or_create_eq u kw db :
  get_or_create fails u kw db =
    if fails SGet then (db, Raise DatabaseError)
    else match map_to_list (objects_filter (matches u kw) db) with
         | [] =>
             if fails SCreate then (db, Raise DatabaseError)
             else match notification_type_valid (default "" (kw_notification_type kw)) with
                  | Some t => (<[next_pk db := new_row u t kw]> db,
                               Ok (mkInstance (next_pk db) (new_row u t kw) None, true))
                  | None => (db, Raise IntegrityError)
                  end
         | [(k, n)] => (db, Ok (mkInstance k n None, false))
         | _ => (db, Raise MultipleObjectsReturned)
         end.
Proof.
  unfold get_or_create, objects_get, objects_create. unfold_M.
  destruct (fails SGet); [done |].
  destruct (map_to_list (objects_filter (matches u kw) db)) as [|[k n] [|]] eqn:Hl;
    [| done | done].
  destruct (fails SCreate); [done |].
  destruct (notification_type_valid _); [done |].
  by rewrite Hl.
Qed.

Lemma notify_eq u ru kw db :
  notify fails u ru kw db =
    if negb (local u) || user_eqb u ru then (db, Ok ())
    else if fails SGet then (db, Raise DatabaseError)
    else match map_to_list (objects_filter (matches u kw) db) with
         | [] =>
             if fails SCreate then (db, Raise DatabaseError)
             else match notification_type_valid (default "" (kw_notification_type kw)) with
                  | Some t =>
                      if fails SAdd || fails SSave then (db, Raise DatabaseError)
                      else (<[next_pk db := link_user ru (new_row u t kw)]> db, Ok ())
                  | None => (db, Raise IntegrityError)
                  end
         | [(k, n)] =>
             if fails SAdd || fails SSave then (db, Raise DatabaseError)
             else (<[k := link_user ru n]> db, Ok ())
         | _ => (db, Raise MultipleObjectsReturned)
         end.
Proof.
  unfold notify, atomic. destruct (negb (local u) || user_eqb u ru); [done |].
  unfold mbind, M_bind at 1.
  rewrite get_or_create_eq. destruct (fails SGet); [done |].
  destruct (map_to_list (objects_filter (matches u kw) db)) as [|[k n] [|]] eqn:Hl;
    [| | done].
  - destruct (fails SCreate); [done |].
    destruct (notification_type_valid _) as [t|]; [| done].
    unfold related_users_add, save, set_unread. unfold_M. simpl.
    destruct (fails SAdd); [done |]. rewrite lookup_insert_eq.
    destruct (fails SSave); [done |]. simpl. rewrite lookup_insert_eq.
    unfold link_user. by rewrite with_columns_links, !insert_insert_eq.
  - apply to_list_singleton, objects_filter_singleton_lookup in Hl as [Hk _].
    unfold related_users_add, save, set_unread. unfold_M. simpl.
    destruct (fails SAdd); [done |]. rewrite Hk.
    destruct (fails SSave); [done |]. simpl. rewrite lookup_insert_eq.
    unfold link_user. by rewrite with_columns_links, !insert_insert_eq.
Qed.

Lemma unnotify_eq u ru kw db :
  unnotify fails u ru kw db =
    if fails SGet then (db, Raise DatabaseError)
    else match map_to_list (objects_filter (matches u kw) db) with
         | [] => (db, Ok ())
         | [(k, n)] =>
             if fails SRemove then (db, Raise DatabaseError)
             else if fails SExists then (<[k := unlink_user ru n]> db, Raise DatabaseError)
             else if bool_decide (related_users n ∖ {[user_pk ru]} = ∅)
             then if fails SDelete then (<[k := unlink_user ru n]> db, Raise DatabaseError)
                  else (delete k db, Ok ())
             else (<[k := unlink_user ru n]> db, Ok ())
         | _ => (db, Raise MultipleObjectsReturned)
         end.
Proof.
  unfold unnotify. unfold mbind, M_bind at 1. unfold try_except.
  unfold M_bind at 1. rewrite objects_get_eq. destruct (fails SGet); [done |].
  destruct (map_to_list (objects_filter (matches u kw) db)) as [|[k n] [|]] eqn:Hl;
    [done | | done].
  apply to_list_singleton, objects_filter_singleton_lookup in Hl as [Hk _].
  unfold related_users_remove, related_users_exists, delete_instance. unfold_M. simpl.
  destruct (fails SRemove); [done |].
  assert (Ha : alter (unlink_user ru) k db = <[k := unlink_user ru n]> db).
  { apply map_eq. intros j. rewrite lookup_alter, lookup_insert.
    destruct (decide (k = j)) as [<-|]; [by rewrite Hk | done]. }
  rewrite Ha. destruct (fails SExists); [done |]. rewrite lookup_insert_eq.
  change (related_users (unlink_user ru n)) with (related_users n ∖ {[user_pk ru]}).
  destruct (bool_decide (related_users n ∖ {[user_pk ru]} = ∅)); simpl; [| done].
  destruct (fails SDelete); [done |]. by rewrite delete_insert_eq.
Qed.

End Equations.

Lemma filter_empty_list p (db : DB) :
  objects_filter p db = ∅ → map_to_list (objects_filter p db) = [].
Proof. intros ->. apply map_to_list_empty. Qed.

Lemma filter_singleton_list p (db : DB) k n :
  objects_filter p db = {[k := n]} → map_to_list (objects_filter p db) = [(k, n)].
Proof. intros ->. apply map_to_list_singleton. Qed.

Lemma filter_many_list p (db : DB) :
  2 ≤ size (objects_filter p db) →
  ∃ x y l, map_to_list (objects_filter p db) = x :: y :: l.
Proof.
  rewrite <- length_map_to_list.
  destruct (map_to_list (objects_filter p db)) as [|x [|y l]]; simpl; [lia | lia |].
  eauto.
Qed.

(** The three things a call of [notify] can do to the table. *)
Lemma notify_effect fails u ru kw db :
  (notify fails u ru kw db).1 = db
  ∨ (∃ k n, objects_filter (matches u kw) db = {[k := n]}
        ∧ notify fails u ru kw db = (<[k := link_user ru n]> db, Ok ()))
  ∨ (∃ t, objects_filter (matches u kw) db = ∅
        ∧ notification_type_valid (default "" (kw_notification_type kw)) = Some t
        ∧ notify fails u ru kw db = (<[next_pk db := link_user ru (new_row u t kw)]> db, Ok ())).
Proof.
  rewrite notify_eq.
  destruct (negb (local u) || user_eqb u ru); [by left |].
  destruct (fails SGet); [by left |].
  destruct (map_to_list (objects_filter (matches u kw) db)) as [|[k n] [|]] eqn:Hl;
    [| | by left].
  - destruct (fails SCreate); [by left |].
    destruct (notification_type_valid _) as [t|] eqn:Ht; [| by left].
    destruct (fails SAdd || fails SSave); [by left |].
    right; right. exists t. by apply map_to_list_empty_iff in Hl.
  - destruct (fails SAdd || fails SSave); [by left |].
    right; left. exists k, n. by apply to_list_singleton in Hl.
Qed.

Lemma reachable_run es db : reachable db → reachable (run es db).
Proof.
  revert db. induction es as [|e es IH]; intros db H; simpl; [done |].
  apply IH. by constructor.
Qed.

Lemma one_fav_eq :
  one_fav = {[1 := mkNotification 1 false FAVORITE {[2]} ∅ (Some 10) None ∅ ∅]}.
Proof. by vm_compute. Qed.

Lemma two_favs_eq :
  two_favs = <[2 := mkNotification 1 false FAVORITE {[2]} ∅ (Some 11) None ∅ ∅]>
               {[1 := mkNotification 1 false FAVORITE {[2]} ∅ (Some 10) None ∅ ∅]}.
Proof. by vm_compute. Qed.

(** With no database error, [notify] links the related user to the one
    row its lookup finds. *)
Lemma notify_found u ru kw db k n :
  negb (local u) || user_eqb u ru = false →
  objects_filter (matches u kw) db = {[k := n]} →
  notify no_faults u ru kw db = (<[k := link_user ru n]> db, Ok ()).
Proof.
  intros Hgo Hf. by rewrite notify_eq, Hgo, (filter_singleton_list _ _ _ _ Hf).
Qed.

(** ** The claims about [notify] and [unnotify] *)

(** C10: when no notification matches (user, filters), [unnotify] returns
    normally, without an exception, and leaves the table as it was. *)
Theorem unnotify_no_match u ru kw db :
  (∀ k n, db !! k = Some n → matches u kw n = false) →
  unnotify no_faults u ru kw db = (db, Ok ()).
Proof.
  intros H. apply objects_filter_empty, filter_empty_list in H.
  rewrite unnotify_eq, H. done.
Qed.

Lemma unnotify_no_match_witness :
  unnotify no_faults alice carol (status_kw "FAVORITE" st2) one_fav = (one_fav, Ok ()).
Proof.
  apply unnotify_no_match. intros k n Hk.
  rewrite one_fav_eq in Hk. apply lookup_singleton_Some in Hk as [_ <-].
  reflexivity.
Defined.

(** C9: [notify] never changes the persisted read flag of a notification
    that exists: every row is still there after the call, with the value
    of [read] it had before.  The code sets the attribute [unread] of the
    instance, which [save] does not write, and never the column [read]. *)
Theorem notify_keeps_read fails u ru kw db k n :
  db !! k = Some n →
  ∃ n', (notify fails u ru kw db).1 !! k = Some n' ∧ read n' = read n.
Proof.
  intros Hk.
  destruct (notify_effect fails u ru kw db) as [-> | [(k0 & n0 & Hf & ->) | (t & Hf & _ & ->)]];
    simpl; [by eauto | |].
  - apply objects_filter_singleton_lookup in Hf as [Hk0 _].
    destruct (decide (k0 = k)) as [->|Hne].
    + rewrite lookup_insert_eq. rewrite Hk in Hk0. injection Hk0 as <-.
      eexists. split; [done |]. by destruct n.
    + rewrite lookup_insert_ne by done. eauto.
  - rewrite lookup_insert_ne; [by eauto |].
    intros Heq. rewrite <- Heq, next_pk_fresh in Hk. done.
Qed.

Lemma notify_keeps_read_witness :
  ∃ n', (notify no_faults alice root (status_kw "FAVORITE" st1) read_fav).1 !! 1 = Some n'
        ∧ read n' = true.
Proof.
  apply (notify_keeps_read no_faults alice root (status_kw "FAVORITE" st1) read_fav 1
           (mkNotification 1 true FAVORITE {[2]} ∅ (Some 10) None ∅ ∅)).
  reflexivity.
Defined.


(** C5 fails when the filters match more than one notification: [get]
    raises [MultipleObjectsReturned], which [unnotify] does not catch, and
    nothing is removed.  [alice] has a FAVORITE notification for each of
    two statuses, both from [bob]; the filters name the type only. *)
Lemma unnotify_two_matches :
  reachable two_favs
  ∧ unnotify no_faults alice bob (type_kw "FAVORITE") two_favs
    = (two_favs, Raise MultipleObjectsReturned)
  ∧ ¬ unnotify_claim alice bob (type_kw "FAVORITE") two_favs.
Proof.
  split; [apply reachable_run, reachable_empty |].
  split; [by vm_compute |].
  intros H.
  specialize (H 1 (mkNotification 1 false FAVORITE {[2]} ∅ (Some 10) None ∅ ∅)).
  vm_compute in H. by specialize (H eq_refl eq_refl).
Qed.

(** C5, amended: when exactly one notification matches (user, filters),
    [unnotify] removes the related user from it and deletes it if and only
    if no related user remains; no other row changes. *)
Theorem unnotify_one_match u ru kw db k n :
  objects_filter (matches u kw) db = {[k := n]} →
  unnotify no_faults u ru kw db =
    (if decide (related_users n ∖ {[user_pk ru]} = ∅)
     then delete k db
     else <[k := unlink_user ru n]> db, Ok ()).
Proof.
  intros Hf. rewrite unnotify_eq, (filter_singleton_list _ _ _ _ Hf). simpl.
  rewrite bool_decide_decide. by destruct (decide _).
Qed.

Lemma unnotify_one_match_witness :
  unnotify no_faults alice bob (status_kw "FAVORITE" st1) two_favs
    = (delete 1 two_favs, Ok ()).
Proof.
  rewrite (unnotify_one_match alice bob (status_kw "FAVORITE" st1) two_favs 1
             (mkNotification 1 false FAVORITE {[2]} ∅ (Some 10) None ∅ ∅))
    by (by vm_compute).
  by rewrite decide_True by (by vm_compute).
Defined.

(** C3 fails when the filters match more than one notification:
    [get_or_create] raises [MultipleObjectsReturned] and the related user
    is added nowhere.  [alice] is local and has a FAVORITE notification
    for each of two statuses; [root] is another user. *)
Lemma notify_two_matches :
  reachable two_favs
  ∧ notify no_faults alice root (type_kw "FAVORITE") two_favs
    = (two_favs, Raise MultipleObjectsReturned)
  ∧ ¬ notify_claim alice root (type_kw "FAVORITE") two_favs.
Proof.
  split; [apply reachable_run, reachable_empty |].
  split; [by vm_compute |].
  unfold notify_claim. intros (k & n & Hk & _ & Hin).
  replace (notify no_faults alice root (type_kw "FAVORITE") two_favs).1
    with two_favs in Hk by (by vm_compute).
  rewrite two_favs_eq in Hk.
  apply lookup_insert_Some in Hk as [[_ <-] | [_ Hk]].
  - by vm_compute in Hin.
  - apply lookup_singleton_Some in Hk as [_ <-]. by vm_compute in Hin.
Qed.

(** C3, amended: if the user is not local or is the related user, the call
    is a no-op.  Otherwise: when exactly one notification matches (user,
    filters) the related user is added to it; when none matches and the
    filters give a type the table accepts, a notification is created from
    (user, filters) and the related user is added to it; when several
    match, or none matches and the table refuses the type, the call raises
    and changes nothing. *)
Theorem notify_spec u ru kw db :
  (negb (local u) || user_eqb u ru = true →
     ∀ fails, notify fails u ru kw db = (db, Ok ()))
  ∧ (negb (local u) || user_eqb u ru = false →
     (∀ k n, objects_filter (matches u kw) db = {[k := n]} →
        notify no_faults u ru kw db = (<[k := link_user ru n]> db, Ok ()))
     ∧ (∀ t, objects_filter (matches u kw) db = ∅ →
        notification_type_valid (default "" (kw_notification_type kw)) = Some t →
        db !! next_pk db = None ∧ matches u kw (new_row u t kw) = true
        ∧ notify no_faults u ru kw db
            = (<[next_pk db := link_user ru (new_row u t kw)]> db, Ok ()))
     ∧ (2 ≤ size (objects_filter (matches u kw) db) →
        notify no_faults u ru kw db = (db, Raise MultipleObjectsReturned))
     ∧ (objects_filter (matches u kw) db = ∅ →
        notification_type_valid (default "" (kw_notification_type kw)) = None →
        notify no_faults u ru kw db = (db, Raise IntegrityError))).
Proof.
  split; [intros Hskip fails; by rewrite notify_eq, Hskip |].
  intros Hgo. split; [| split; [| split]].
  - intros k n Hf. by apply notify_found.
  - intros t Hf Ht. split; [apply next_pk_fresh |].
    split; [by apply matches_new_row |].
    by rewrite notify_eq, Hgo, (filter_empty_list _ _ Hf), Ht.
  - intros Hf. apply filter_many_list in Hf as ([k n] & y & l & Hl).
    by rewrite notify_eq, Hgo, Hl.
  - intros Hf Ht.
    by rewrite notify_eq, Hgo, (filter_empty_list _ _ Hf), Ht.
Qed.

Lemma notify_spec_witness :
  notify no_faults carol bob (type_kw "FAVORITE") one_fav = (one_fav, Ok ())
  ∧ notify no_faults alice root (status_kw "FAVORITE" st1) one_fav
      = (<[1 := link_user root (mkNotification 1 false FAVORITE {[2]} ∅ (Some 10) None ∅ ∅)]>
           one_fav, Ok ())
  ∧ notify no_faults alice root (status_kw "FAVORITE" st2) one_fav
      = (<[2 := link_user root (new_row alice FAVORITE (status_kw "FAVORITE" st2))]>
           one_fav, Ok ())
  ∧ notify no_faults alice root (type_kw "FAVORITE") two_favs
      = (two_favs, Raise MultipleObjectsReturned)
  ∧ notify no_faults alice root (type_kw "LIKE") one_fav
      = (one_fav, Raise IntegrityError).
Proof.
  split; [| split; [| split; [| split]]].
  - apply (proj1 (notify_spec carol bob (type_kw "FAVORITE") one_fav)). reflexivity.
  - apply (proj2 (notify_spec alice root (status_kw "FAVORITE" st1) one_fav) eq_refl).
    by vm_compute.
  - refine (proj2 (proj2 (proj1 (proj2 (proj2
      (notify_spec alice root (status_kw "FAVORITE" st2) one_fav) eq_refl))
      FAVORITE _ _))); by vm_compute.
  - apply (proj2 (notify_spec alice root (type_kw "FAVORITE") two_favs) eq_refl).
    by vm_compute.
  - apply (proj2 (notify_spec alice root (type_kw "LIKE") one_fav) eq_refl);
      by vm_compute.
Defined.

(** ** Errors and the transaction boundary *)

(** C2 fails for [unnotify], which has no [transaction.atomic]: when the
    [delete] of the emptied notification raises, the removal of the
    related user, already done, stays in the table. *)
Lemma unnotify_not_rolled_back :
  reachable one_fav
  ∧ unnotify delete_fails alice bob (status_kw "FAVORITE" st1) one_fav
    = ({[1 := mkNotification 1 false FAVORITE ∅ ∅ (Some 10) None ∅ ∅]},
       Raise DatabaseError)
  ∧ ¬ (∀ u ru kw, rolls_back (λ fails, notify fails u ru kw)
                  ∧ rolls_back (λ fails, unnotify fails u ru kw)).
Proof.
  assert (Hrun : unnotify delete_fails alice bob (status_kw "FAVORITE" st1) one_fav
    = ({[1 := mkNotification 1 false FAVORITE ∅ ∅ (Some 10) None ∅ ∅]},
       Raise DatabaseError)) by (by vm_compute).
  split; [apply reachable_run, reachable_empty |].
  split; [done |]. intros H.
  destruct (H alice bob (status_kw "FAVORITE" st1)) as [_ Hun].
  specialize (Hun delete_fails one_fav _ _ Hrun).
  rewrite one_fav_eq in Hun.
  assert (Hl : ({[1 := mkNotification 1 false FAVORITE ∅ ∅ (Some 10) None ∅ ∅]} : DB) !! 1
               = Some (mkNotification 1 false FAVORITE {[2]} ∅ (Some 10) None ∅ ∅))
    by (rewrite Hun; apply lookup_singleton_eq).
  rewrite lookup_singleton_eq in Hl.
  pose proof (f_equal (from_option related_users ∅) Hl) as Hr. simpl in Hr.
  assert (Hin : 2 ∈ (∅ : gset nat)) by (rewrite Hr; by apply elem_of_singleton).
  by apply not_elem_of_empty in Hin.
Qed.

(** C2, amended: [notify] runs inside a transaction boundary, so whenever
    it raises, at the lookup or at any statement after it, the table is
    left unchanged.  [unnotify] has no boundary of its own: when it raises,
    the table is unchanged if the error came from the lookup or from the
    removal, and otherwise holds the one notification that matched with the
    related user removed. *)
Theorem notify_rolls_back u ru kw :
  rolls_back (λ fails, notify fails u ru kw)
  ∧ ∀ fails db db' e, unnotify fails u ru kw db = (db', Raise e) →
      db' = db
      ∨ ∃ k n, objects_filter (matches u kw) db = {[k := n]}
               ∧ db' = <[k := unlink_user ru n]> db.
Proof.
  split.
  - intros fails db db' e H. unfold notify, atomic in H.
    destruct (_ db) as [db1 [[]|e1]]; [done |]. by injection H as <- _.
  - intros fails db db' e H. rewrite unnotify_eq in H.
    destruct (fails SGet); [left; by injection H as <- _ |].
    destruct (map_to_list (objects_filter (matches u kw) db)) as [|[k n] [|]] eqn:Hl;
      [done | | left; by injection H as <- _].
    apply to_list_singleton in Hl.
    destruct (fails SRemove); [left; by injection H as <- _ |].
    destruct (fails SExists); [right; injection H as <- _; by eauto |].
    destruct (bool_decide _); [| done].
    destruct (fails SDelete); [right; injection H as <- _; by eauto | done].
Qed.

Lemma notify_rolls_back_witness :
  (notify save_fails alice root (status_kw "FAVORITE" st1) one_fav).1 = one_fav.
Proof.
  apply (proj1 (notify_rolls_back alice root (status_kw "FAVORITE" st1))
           save_fails one_fav _ DatabaseError).
  by vm_compute.
Defined.

(** ** The reaction to a saved status *)

Section Mention.

Variable fails : site → bool.

Lemma notify_user_on_mention_deleted instance db :
  deleted instance = true →
  notify_user_on_mention fails true instance db =
    if fails SFilterDelete then (db, Raise DatabaseError)
    else (objects_filter
            (λ n, negb (bool_decide (related_status n = Some (status_pk instance)))) db,
          Ok ()).
Proof.
  intros Hd. unfold notify_user_on_mention, atomic, filter_delete. simpl.
  rewrite Hd. unfold_M. by destruct (fails SFilterDelete).
Qed.

End Mention.

(** C6: when a status is saved with its deleted flag set, the reaction
    deletes every notification whose related status is that status,
    whatever its user and type, and does nothing else: the rows left are
    the rows of other statuses, unchanged, so no reply or mention
    notification is created. *)
Theorem status_deleted instance db :
  deleted instance = true →
  ∃ db', notify_user_on_mention no_faults true instance db = (db', Ok ())
    ∧ (∀ k n, db !! k = Some n → related_status n = Some (status_pk instance) →
         db' !! k = None)
    ∧ (∀ k n, db' !! k = Some n →
         db !! k = Some n ∧ related_status n ≠ Some (status_pk instance))
    ∧ (∀ k n, db !! k = Some n → related_status n ≠ Some (status_pk instance) →
         db' !! k = Some n).
Proof.
  intros Hd. rewrite notify_user_on_mention_deleted by done. simpl.
  eexists. split; [done |]. split; [| split].
  - intros k n Hk Hs.
    destruct (objects_filter _ db !! k) as [n'|] eqn:Hf; [| done].
    apply objects_filter_lookup in Hf as [Hk' Hp].
    rewrite Hk in Hk'. injection Hk' as <-.
    by rewrite bool_decide_eq_true_2 in Hp.
  - intros k n Hf. apply objects_filter_lookup in Hf as [Hk Hp].
    split; [done |]. intros Hs. by rewrite bool_decide_eq_true_2 in Hp.
  - intros k n Hk Hs. apply objects_filter_lookup. split; [done |].
    by rewrite bool_decide_eq_false_2.
Qed.

Lemma status_deleted_witness :
  ∃ db', notify_user_on_mention no_faults true st1_deleted two_favs = (db', Ok ())
    ∧ (∀ k n, two_favs !! k = Some n → related_status n = Some 10 → db' !! k = None)
    ∧ (∀ k n, db' !! k = Some n → two_favs !! k = Some n ∧ related_status n ≠ Some 10)
    ∧ (∀ k n, two_favs !! k = Some n → related_status n ≠ Some 10 → db' !! k = Some n).
Proof.
  apply (status_deleted st1_deleted two_favs). reflexivity.
Defined.

(** ** Reasoning about composed computations

    A property [R] of the table before and after, reflexive and transitive,
    holds of a computation as soon as it holds of its parts. *)

Section Steps.

Variable R : relation DB.
Context `{!PreOrder R}.

Lemma step_atomic {A} (m : M A) db : R db (m db).1 → R db (atomic m db).1.
Proof. unfold atomic. by destruct (m db) as [db' [a|e]]. Qed.

Lemma step_bind {A B} (m : M A) (f : A → M B) db :
  R db (m db).1 → (∀ a db1, R db1 (f a db1).1) → R db ((m ≫= f) db).1.
Proof.
  intros Hm Hf. unfold mbind, M_bind.
  destruct (m db) as [db1 [a|e]]; simpl in *; [| done].
  by etrans.
Qed.

Lemma step_for_each {A} (l : list A) (body : A → M unit) :
  (∀ x db, x ∈ l → R db (body x db).1) → ∀ db, R db (for_each l body db).1.
Proof.
  induction l as [|x l IH]; intros Hbody db; simpl; [done |].
  apply step_bind.
  - apply Hbody. by left.
  - intros _ db1. apply IH. intros y db2 Hy. apply Hbody. by right.
Qed.

Lemma step_ok_bind {A B} (m : M A) (f : A → M B) db db1 a :
  m db = (db1, Ok a) → (m ≫= f) db = f a db1.
Proof. intros H. unfold mbind, M_bind. by rewrite H. Qed.

Lemma step_statement fails s db : R db (statement fails s db).1.
Proof. unfold statement. by destruct (fails s). Qed.

End Steps.

(** ** Rows a reaction does not give *)

Global Instance no_gain_preorder P : PreOrder (no_gain P).
Proof.
  split.
  - by intros db k n.
  - intros db1 db2 db3 H12 H23 k n Hk Hp. eauto.
Qed.

Section NoGain.

Variable P : Notification → Prop.

Lemma no_gain_filter p db : no_gain P db (objects_filter p db).
Proof. intros k n Hk _. by apply objects_filter_lookup in Hk as [? _]. Qed.

(** [notify] gives and changes only rows its lookup matches. *)
Lemma no_gain_notify fails u ru kw db :
  (∀ n, P n → matches u kw n = false) →
  no_gain P db (notify fails u ru kw db).1.
Proof.
  intros HP.
  destruct (notify_effect fails u ru kw db)
    as [-> | [(k & n & Hf & ->) | (t & Hf & Ht & ->)]]; simpl.
  - done.
  - intros j m Hj Hm. apply lookup_insert_Some in Hj as [[<- <-] | [_ Hj]]; [| done].
    apply objects_filter_singleton_lookup in Hf as [_ Hmatch].
    apply HP in Hm. unfold link_user in Hm. rewrite matches_links in Hm. congruence.
  - intros j m Hj Hm. apply lookup_insert_Some in Hj as [[<- <-] | [_ Hj]]; [| done].
    apply HP in Hm. unfold link_user in Hm.
    rewrite matches_links, matches_new_row in Hm by done. done.
Qed.

End NoGain.

Lemma matches_status_kw u ty s n :
  matches u (status_kw ty s) n = true ↔
  user n = user_pk u ∧ value (notification_type n) = ty
  ∧ related_status n = Some (status_pk s).
Proof.
  unfold matches, status_kw, kw_ok. simpl.
  rewrite !andb_true_r, !andb_true_iff, !bool_decide_eq_true. tauto.
Qed.

Lemma matches_status_kw_false u ty s n :
  user n ≠ user_pk u ∨ value (notification_type n) ≠ ty →
  matches u (status_kw ty s) n = false.
Proof.
  intros H. destruct (matches u (status_kw ty s) n) eqn:Hm; [| done].
  apply matches_status_kw in Hm. tauto.
Qed.

(** The saved-status reaction gives no row satisfying [P] if neither the
    REPLY call it may make nor any MENTION call it may make matches such
    a row. *)
Lemma no_gain_notify_user_on_mention P fails sender_is_status instance db :
  (∀ parent, reply_parent instance = Some parent →
     negb (user_eqb (status_user parent) (status_user instance))
       && local (status_user parent) = true →
     ∀ n, P n → matches (status_user parent) (status_kw "REPLY" instance) n = false) →
  (∀ m, m ∈ mention_users instance →
     negb (local m) || is_reply_parent_user instance m = false →
     ∀ n, P n → matches m (status_kw "MENTION" instance) n = false) →
  no_gain P db (notify_user_on_mention fails sender_is_status instance db).1.
Proof.
  intros Hreply Hment. unfold notify_user_on_mention. apply step_atomic; [apply _ |].
  destruct (negb sender_is_status); [done |].
  destruct (deleted instance).
  - unfold filter_delete. apply step_bind; [apply _ | apply step_statement, _ |].
    intros _ db1. apply no_gain_filter.
  - apply step_bind; [apply _ | |].
    + destruct (reply_parent instance) as [parent|]; [| done].
      destruct (negb _ && local _) eqn:Hc; [| done].
      apply no_gain_notify. by apply Hreply.
    + intros _ db1. apply step_for_each; [apply _ |]. intros m db2 Hm.
      destruct (negb (local m) || is_reply_parent_user instance m) eqn:Hc; [done |].
      apply no_gain_notify. by apply Hment.
Qed.

(** C7: when a reply is saved, a mentioned user who is the author of the
    reply parent gets no MENTION notification, and neither does a
    mentioned user who is not local; a REPLY notification goes to nobody
    but the author of the reply parent, and to nobody at all unless that
    author is local and is not the author of the status. *)
Theorem reply_mention_suppression fails sender_is_status instance parent db :
  reply_parent instance = Some parent →
  let db' := (notify_user_on_mention fails sender_is_status instance db).1 in
  no_gain (λ n, user n = user_pk (status_user parent) ∧ notification_type n = MENTION)
    db db'
  ∧ (∀ p, (∀ m, m ∈ mention_users instance → user_pk m = p → local m = false) →
       no_gain (λ n, user n = p ∧ notification_type n = MENTION) db db')
  ∧ no_gain (λ n, notification_type n = REPLY ∧ user n ≠ user_pk (status_user parent))
      db db'
  ∧ (local (status_user parent) = false
     ∨ user_eqb (status_user parent) (status_user instance) = true →
     no_gain (λ n, notification_type n = REPLY) db db').
Proof.
  intros Hparent db'. subst db'. split; [| split; [| split]].
  - apply no_gain_notify_user_on_mention.
    + intros parent' _ _ n [_ Hty]. apply matches_status_kw_false. right.
      by rewrite Hty.
    + intros m _ Hc n [Hu _]. apply matches_status_kw_false. left.
      apply orb_false_iff in Hc as [_ Hc].
      unfold is_reply_parent_user, user_eqb in Hc. rewrite Hparent in Hc.
      apply bool_decide_eq_false in Hc. congruence.
  - intros p Hp. apply no_gain_notify_user_on_mention.
    + intros parent' _ _ n [_ Hty]. apply matches_status_kw_false. right.
      by rewrite Hty.
    + intros m Hm Hc n [Hu _]. apply matches_status_kw_false. left.
      apply orb_false_iff in Hc as [Hc _]. apply negb_false_iff in Hc.
      intros Heq. rewrite Hp in Hc; [done | done | congruence].
  - apply no_gain_notify_user_on_mention.
    + intros parent' Hp' _ n [_ Hu]. apply matches_status_kw_false. left.
      congruence.
    + intros m _ _ n [Hty _]. apply matches_status_kw_false. right. by rewrite Hty.
  - intros Hcond. apply no_gain_notify_user_on_mention.
    + intros parent' Hp' Hc. assert (parent' = parent) as -> by congruence.
      apply andb_true_iff in Hc as [Hc1 Hc2].
      apply negb_true_iff in Hc1. destruct Hcond; congruence.
    + intros m _ _ n Hty. apply matches_status_kw_false. right. by rewrite Hty.
Qed.

Lemma reply_mention_suppression_witness :
  let db' := (notify_user_on_mention no_faults true reply1 ∅).1 in
  no_gain (λ n, user n = 1 ∧ notification_type n = MENTION) ∅ db'
  ∧ no_gain (λ n, user n = 3 ∧ notification_type n = MENTION) ∅ db'
  ∧ no_gain (λ n, notification_type n = REPLY ∧ user n ≠ 1) ∅ db'
  ∧ no_gain (λ n, notification_type n = REPLY) two_favs
      (notify_user_on_mention no_faults true own_reply two_favs).1.
Proof.
  pose proof (reply_mention_suppression no_faults true reply1 st1 ∅ eq_refl)
    as (H1 & H2 & H3 & _).
  pose proof (reply_mention_suppression no_faults true own_reply st1 two_favs eq_refl)
    as (_ & _ & _ & H4).
  split; [exact H1 |]. split; [| split; [exact H3 | exact (H4 (or_intror eq_refl))]].
  apply (H2 3).
  apply (proj1 (Forall_forall (λ m, user_pk m = 3 → local m = false) _)). simpl.
  repeat (constructor; [done |]). constructor.
Defined.

Example reply1_rows :
  map_to_list (notify_user_on_mention no_faults true reply1 ∅).1
  = [(1, mkNotification 1 false REPLY {[2]} ∅ (Some 20) None ∅ ∅);
     (2, mkNotification 4 false MENTION {[2]} ∅ (Some 20) None ∅ ∅)]
  ∨ map_to_list (notify_user_on_mention no_faults true reply1 ∅).1
  = [(2, mkNotification 4 false MENTION {[2]} ∅ (Some 20) None ∅ ∅);
     (1, mkNotification 1 false REPLY {[2]} ∅ (Some 20) None ∅ ∅)].
Proof. vm_compute. by (left + right). Qed.

(** ** One record for each combination *)

Global Instance keeps_preorder I : PreOrder (keeps I).
Proof.
  split; [intros db H; exact H | intros db1 db2 db3 H12 H23 H; exact (H23 (H12 H))].
Qed.

Lemma keyed_empty : keyed ∅.
Proof. split; intros *; by rewrite lookup_empty. Qed.

Lemma keyed_update db k n n' :
  db !! k = Some n → same_key n n' → keeps keyed db (<[k := n']> db).
Proof.
  intros Hk (Hu & Ht & Hs) [Huniq Hrep]. split.
  - intros k1 k2 n1 n2 H1 H2 Hty (Hu' & Ht' & Hs').
    apply lookup_insert_Some in H1 as [[<- <-] | [Hne1 H1]];
      apply lookup_insert_Some in H2 as [[<- <-] | [Hne2 H2]]; [done | | |].
    + apply (Huniq k k2 n n2); [done | done | congruence |].
      unfold same_key. repeat split; congruence.
    + apply (Huniq k1 k n1 n); [done | done | done |].
      unfold same_key. repeat split; congruence.
    + by apply (Huniq k1 k2 n1 n2).
  - intros j m Hj Hty. apply lookup_insert_Some in Hj as [[<- <-] | [_ Hj]].
    + rewrite <- Hs. apply (Hrep k n); congruence.
    + by apply (Hrep j m).
Qed.

Lemma keyed_subseteq db db' : db' ⊆ db → keeps keyed db db'.
Proof.
  intros Hsub [Huniq Hrep]. split.
  - intros k1 k2 n1 n2 H1 H2. apply (Huniq k1 k2 n1 n2);
      by eapply lookup_weaken.
  - intros k n Hk. apply (Hrep k n). by eapply lookup_weaken.
Qed.

Lemma keyed_insert_new db k n :
  db !! k = None →
  notification_type n = IMPORT ∨ (∀ k0 n0, db !! k0 = Some n0 → ¬ same_key n0 n) →
  (notification_type n = REPORT → related_status n = None) →
  keeps keyed db (<[k := n]> db).
Proof.
  intros Hk Hnew Hr [Huniq Hrep]. split.
  - intros k1 k2 n1 n2 H1 H2 Hty (Hu & Ht & Hs).
    apply lookup_insert_Some in H1 as [[<- <-] | [Hne1 H1]];
      apply lookup_insert_Some in H2 as [[<- <-] | [Hne2 H2]]; [done | | |].
    + destruct Hnew as [Himp | Hnew]; [done |]. exfalso.
      apply (Hnew k2 n2 H2). unfold same_key. repeat split; congruence.
    + destruct Hnew as [Himp | Hnew]; [congruence |]. exfalso.
      by apply (Hnew k1 n1 H1).
    + by apply (Huniq k1 k2 n1 n2).
  - intros j m Hj Hty. apply lookup_insert_Some in Hj as [[<- <-] | [_ Hj]]; [auto |].
    by apply (Hrep j m).
Qed.

Lemma objects_filter_subseteq p (db : DB) : objects_filter p db ⊆ db.
Proof. apply map_filter_subseteq. Qed.

Section Keyed.

Variable fails : site → bool.

Lemma keyed_notify u ru ty s db :
  ty ≠ "REPORT" → keeps keyed db (notify fails u ru (status_kw ty s) db).1.
Proof.
  intros Hty.
  destruct (notify_effect fails u ru (status_kw ty s) db)
    as [-> | [(k & n & Hf & ->) | (t & Hf & Ht & ->)]]; simpl; [done | |].
  - apply objects_filter_singleton_lookup in Hf as [Hk _].
    apply (keyed_update db k n); [done |]. by destruct n.
  - apply keyed_insert_new; [apply next_pk_fresh | |].
    + right. intros k0 n0 Hk0 (Hu & Ht' & Hs).
      assert (Hm : matches u (status_kw ty s) n0 = false)
        by (by eapply objects_filter_empty).
      assert (matches u (status_kw ty s) n0 = true); [| congruence].
      apply matches_status_kw. simpl in *.
      apply valid_value in Ht. simpl in Ht. rewrite Hu, Ht', Hs. done.
    + simpl. intros ->. by apply valid_value in Ht.
Qed.

Lemma keyed_unnotify u ru kw db : keeps keyed db (unnotify fails u ru kw db).1.
Proof.
  rewrite unnotify_eq. destruct (fails SGet); [done |].
  destruct (map_to_list (objects_filter (matches u kw) db)) as [|[k n] [|]] eqn:Hl;
    [done | | done].
  apply to_list_singleton, objects_filter_singleton_lookup in Hl as [Hk _].
  assert (Hup : keeps keyed db (<[k := unlink_user ru n]> db))
    by (apply (keyed_update db k n); [done | by destruct n]).
  destruct (fails SRemove); [done |]. destruct (fails SExists); [done |].
  destruct (bool_decide _); [| done]. destruct (fails SDelete); [done |].
  apply keyed_subseteq, delete_subseteq.
Qed.

Lemma keyed_notify_user_on_mention sender_is_status instance db :
  keeps keyed db (notify_user_on_mention fails sender_is_status instance db).1.
Proof.
  unfold notify_user_on_mention. apply step_atomic; [apply _ |].
  destruct (negb sender_is_status); [done |].
  destruct (deleted instance).
  - unfold filter_delete. apply step_bind; [apply _ | apply step_statement, _ |].
    intros _ db1. apply keyed_subseteq, objects_filter_subseteq.
  - apply step_bind; [apply _ | |].
    + destruct (reply_parent instance) as [parent|]; [| done].
      destruct (negb _ && local _); [| done]. by apply keyed_notify.
    + intros _ db1. apply step_for_each; [apply _ |]. intros m db2 _.
      destruct (negb (local m) || is_reply_parent_user instance m); [done |].
      by apply keyed_notify.
Qed.

Lemma keyed_objects_create u kw db :
  kw_notification_type kw = Some "IMPORT" →
  keeps keyed db (objects_create fails u kw db).1.
Proof.
  intros Hty. unfold objects_create. unfold_M. rewrite Hty. simpl.
  destruct (fails SCreate); [done |]. simpl.
  apply keyed_insert_new; [apply next_pk_fresh | by left | done].
Qed.

Lemma keyed_report_body r admin db :
  keeps keyed db
    (('(notification, _) ← get_or_create fails admin report_kw;
      related_reports_add fails notification r) db).1.
Proof.
  unfold mbind, M_bind. rewrite get_or_create_eq.
  destruct (fails SGet); [done |].
  destruct (map_to_list (objects_filter (matches admin report_kw) db))
    as [|[k n] [|]] eqn:Hl; [| | done].
  - apply map_to_list_empty_iff in Hl.
    destruct (fails SCreate); [done |]. simpl.
    assert (Hnew : ∀ n', same_key (new_row admin REPORT report_kw) n' →
                     related_status n' = None →
                     keeps keyed db (<[next_pk db := n']> db)).
    { intros n' (Hu & Ht & Hs) Hnone.
      apply keyed_insert_new; [apply next_pk_fresh | | done].
      right. intros k0 n0 Hk0 (Hu' & Ht' & Hs').
      assert (Hm : matches admin report_kw n0 = false)
        by (by eapply objects_filter_empty).
      assert (matches admin report_kw n0 = true); [| congruence].
      unfold matches, report_kw, kw_ok. simpl in *.
      rewrite !andb_true_r, andb_true_iff, !bool_decide_eq_true.
      split; [congruence |]. by rewrite Ht', <- Ht. }
    unfold related_reports_add. unfold_M. simpl.
    destruct (fails SAddReport); simpl.
    + by apply Hnew.
    + rewrite lookup_insert_eq, insert_insert_eq. by apply Hnew.
  - apply to_list_singleton, objects_filter_singleton_lookup in Hl as [Hk _].
    unfold related_reports_add. unfold_M. simpl.
    destruct (fails SAddReport); [done |]. rewrite Hk. simpl.
    apply (keyed_update db k n); [done | by destruct n].
Qed.

Lemma keyed_react e db : keeps keyed db (react fails e db).1.
Proof.
  destruct e as [i | i | b i | i | i | i uf | us i]; simpl.
  - unfold notify_on_fav. apply step_atomic; [apply _ |]. by apply keyed_notify.
  - unfold notify_on_unfav. destruct (negb _); [done |]. apply keyed_unnotify.
  - apply keyed_notify_user_on_mention.
  - unfold notify_user_on_boost. apply step_atomic; [apply _ |].
    destruct (negb _ || _); [done |]. by apply keyed_notify.
  - apply keyed_unnotify.
  - unfold notify_user_on_import_complete. destruct (negb _ || _); [done |].
    apply step_bind; [apply _ | by apply keyed_objects_create | done].
  - unfold notify_admins_on_report. apply step_atomic; [apply _ |].
    apply step_bind; [apply _ | apply step_statement, _ |].
    intros _ db1. apply step_for_each; [apply _ |]. intros admin db2 _.
    apply keyed_report_body.
Qed.

End Keyed.

Lemma reachable_keyed db : reachable db → keyed db.
Proof.
  induction 1 as [|fails e db _ IH]; [apply keyed_empty |].
  by apply keyed_react.
Qed.

Lemma filter_unique p (db : DB) k n :
  db !! k = Some n → p n = true →
  (∀ k' n', db !! k' = Some n' → p n' = true → k' = k) →
  objects_filter p db = {[k := n]}.
Proof.
  intros Hk Hp Huniq. apply map_eq. intros j.
  destruct (decide (j = k)) as [->|Hne].
  - rewrite lookup_singleton_eq. by apply objects_filter_lookup.
  - rewrite lookup_singleton_ne by done.
    destruct (objects_filter p db !! j) as [m|] eqn:Hj; [| done].
    apply objects_filter_lookup in Hj as [Hj Hm]. by destruct (Hne (Huniq j m Hj Hm)).
Qed.

Lemma keyed_status_filter db u ty s k n :
  keyed db → ty ≠ "IMPORT" →
  db !! k = Some n → matches u (status_kw ty s) n = true →
  objects_filter (matches u (status_kw ty s)) db = {[k := n]}.
Proof.
  intros [Huniq _] Hty Hk Hm. apply filter_unique; [done | done |].
  intros k' n' Hk' Hm'.
  apply matches_status_kw in Hm as (Hu & Ht & Hs).
  apply matches_status_kw in Hm' as (Hu' & Ht' & Hs').
  assert (Heq : notification_type n' = notification_type n)
    by (apply value_inj; congruence).
  apply (Huniq k' k n' n); [done | done | |].
  - intros Himp. rewrite Heq in Himp. rewrite Himp in Ht. by subst ty.
  - unfold same_key. repeat split; congruence.
Qed.

Lemma matches_report_kw u n :
  matches u report_kw n = true ↔ user n = user_pk u ∧ notification_type n = REPORT.
Proof.
  unfold matches, report_kw, kw_ok. simpl.
  rewrite !andb_true_r, andb_true_iff, !bool_decide_eq_true.
  split; intros [Hu Ht]; (split; [done |]).
  - by apply value_inj.
  - by rewrite Ht.
Qed.

Lemma keyed_report_filter db u k n :
  keyed db → db !! k = Some n → matches u report_kw n = true →
  objects_filter (matches u report_kw) db = {[k := n]}.
Proof.
  intros [Huniq Hrep] Hk Hm. apply filter_unique; [done | done |].
  intros k' n' Hk' Hm'.
  apply matches_report_kw in Hm as (Hu & Ht).
  apply matches_report_kw in Hm' as (Hu' & Ht').
  apply (Huniq k' k n' n); [done | done | by rewrite Ht' |].
  unfold same_key. rewrite (Hrep k n), (Hrep k' n') by done.
  repeat split; congruence.
Qed.

(** C1 fails for IMPORT: the reaction to a completed import job calls
    [create], not [get_or_create], so a job saved twice with its
    [complete] field leaves two notifications for the same user, type and
    related import. *)
Lemma import_creates_second_record :
  reachable two_imports
  ∧ two_imports !! 1 = Some (mkNotification 1 false IMPORT ∅ ∅ None (Some 7) ∅ ∅)
  ∧ two_imports !! 2 = Some (mkNotification 1 false IMPORT ∅ ∅ None (Some 7) ∅ ∅)
  ∧ ¬ one_record_per_combination (λ _, True) two_imports.
Proof.
  split; [apply reachable_run, reachable_empty |].
  assert (H1 : two_imports !! 1
               = Some (mkNotification 1 false IMPORT ∅ ∅ None (Some 7) ∅ ∅))
    by (by vm_compute).
  assert (H2 : two_imports !! 2
               = Some (mkNotification 1 false IMPORT ∅ ∅ None (Some 7) ∅ ∅))
    by (by vm_compute).
  split; [done |]. split; [done |]. intros H.
  by specialize (H 1 2 _ _ H1 H2 I eq_refl eq_refl eq_refl eq_refl).
Qed.

(** C1, amended: in every table the reactions can produce there is at most
    one notification for each user, type other than IMPORT and related
    object.  The calls of [notify] behind FAVORITE, REPLY, MENTION and
    BOOST, and the [get_or_create] behind REPORT, take the existing record
    when there is one, so a repeated event adds to its related users or
    reports and creates no second record.  The IMPORT reaction creates a
    new record each time it fires. *)
Theorem one_record_per_key db :
  reachable db →
  one_record_per_combination (λ t, t ≠ IMPORT) db
  ∧ (∀ u ru ty s k n,
       db !! k = Some n → matches u (status_kw ty s) n = true → ty ≠ "IMPORT" →
       negb (local u) || user_eqb u ru = false →
       notify no_faults u ru (status_kw ty s) db = (<[k := link_user ru n]> db, Ok ()))
  ∧ (∀ admin k n,
       db !! k = Some n → matches admin report_kw n = true →
       get_or_create no_faults admin report_kw db = (db, Ok (mkInstance k n None, false)))
  ∧ (∀ instance update_fields,
       complete instance = true → "complete" ∈ default [] update_fields →
       db !! next_pk db = None
       ∧ notify_user_on_import_complete no_faults instance update_fields db
         = (<[next_pk db := new_row (job_user instance) IMPORT (import_kw instance)]> db,
            Ok ())).
Proof.
  intros Hreach. pose proof (reachable_keyed db Hreach) as Hkeyed.
  split; [| split; [| split]].
  - intros k1 k2 n1 n2 H1 H2 Hty Hu Ht Hs _.
    by apply (proj1 Hkeyed k1 k2 n1 n2).
  - intros u ru ty s k n Hk Hm Hty Hgo.
    apply notify_found; [done |]. by apply keyed_status_filter.
  - intros admin k n Hk Hm.
    rewrite get_or_create_eq. simpl.
    by rewrite (filter_singleton_list _ _ _ _ (keyed_report_filter db admin k n Hkeyed Hk Hm)).
  - intros instance uf Hc Huf. split; [apply next_pk_fresh |].
    unfold notify_user_on_import_complete. rewrite Hc.
    rewrite bool_decide_eq_true_2 by done. simpl.
    unfold objects_create. unfold_M. simpl. done.
Qed.

Lemma one_record_per_key_witness :
  one_record_per_combination (λ t, t ≠ IMPORT) fav_and_report
  ∧ notify no_faults alice root (status_kw "FAVORITE" st1) fav_and_report
    = (<[1 := link_user root (mkNotification 1 false FAVORITE {[2]} ∅ (Some 10) None ∅ ∅)]>
         fav_and_report, Ok ())
  ∧ get_or_create no_faults bob report_kw fav_and_report
    = (fav_and_report,
       Ok (mkInstance 2 (mkNotification 2 false REPORT ∅ ∅ None None ∅ {[5]}) None, false))
  ∧ notify_user_on_import_complete no_faults job1 (Some ["complete"]) fav_and_report
    = (<[4 := new_row alice IMPORT (import_kw job1)]> fav_and_report, Ok ()).
Proof.
  destruct (one_record_per_key fav_and_report
              (reachable_run _ _ reachable_empty)) as (H1 & H2 & H3 & H4).
  split; [exact H1 |]. split; [| split].
  - apply H2; by vm_compute.
  - apply H3; by vm_compute.
  - apply (H4 job1 (Some ["complete"]) eq_refl). simpl. by left.
Defined.

(** ** The reaction to a saved report *)

Lemma elem_of_admins_query users a :
  a ∈ admins_query users ↔ a ∈ users ∧ is_admin a.
Proof.
  unfold admins_query, is_admin. rewrite list_elem_of_bind. split.
  - intros (u & Ha & Hu). destruct (user_permissions u) as [|p0 ps] eqn:Hperms.
    + destruct (is_superuser u) eqn:Hsu; [| by apply elem_of_nil in Ha].
      apply list_elem_of_singleton in Ha as ->. auto.
    + apply list_elem_of_bind in Ha as (p & Ha & Hp).
      destruct (bool_decide _ || is_superuser u) eqn:Hc; [| by apply elem_of_nil in Ha].
      apply list_elem_of_singleton in Ha as ->. split; [done |].
      apply orb_true_iff in Hc as [Hc | Hc]; [| by right].
      apply bool_decide_eq_true in Hc. left. exists p. by rewrite Hperms.
  - intros [Ha Hadm]. exists a. split; [| done].
    destruct (user_permissions a) as [|p0 ps] eqn:Hperms.
    + destruct Hadm as [(p & Hp & _) | ->]; [by apply elem_of_nil in Hp |].
      by apply list_elem_of_singleton.
    + destruct Hadm as [(p & Hp & Hmod) | Hsu].
      * apply list_elem_of_bind. exists p. split; [| done].
        rewrite bool_decide_eq_true_2 by done. by apply list_elem_of_singleton.
      * apply list_elem_of_bind. exists p0. split; [| by left].
        rewrite Hsu, orb_true_r. by apply list_elem_of_singleton.
Qed.

Lemma link_report_twice r n : link_report r (link_report r n) = link_report r n.
Proof.
  destruct n. unfold link_report, with_related_reports. simpl. f_equal.
  by rewrite (assoc_L (∪)), (idemp_L (∪)).
Qed.

(** One turn of the loop over the admins, on a table that satisfies the
    invariant: the REPORT row of [admin] is taken or created under some key
    [k], and the report is linked to it. *)
Lemma report_body_step r admin db :
  keyed db →
  ∃ k n1,
    ('(notification, _) ← get_or_create no_faults admin report_kw;
     related_reports_add no_faults notification r) db = (<[k := n1]> db, Ok ())
    ∧ user n1 = user_pk admin ∧ notification_type n1 = REPORT
    ∧ report_pk r ∈ related_reports n1
    ∧ fetched_or_created r admin db k n1.
Proof.
  intros Hkeyed. unfold fetched_or_created, mbind, M_bind.
  rewrite get_or_create_eq. simpl.
  destruct (map_to_list (objects_filter (matches admin report_kw) db))
    as [|[k n] l] eqn:Hl.
  - exists (next_pk db), (link_report r (new_row admin REPORT report_kw)).
    unfold related_reports_add. unfold_M. simpl.
    rewrite lookup_insert_eq, insert_insert_eq, next_pk_fresh.
    repeat split. simpl. apply elem_of_union_l. by apply elem_of_singleton.
  - assert (Hin : objects_filter (matches admin report_kw) db !! k = Some n).
    { apply elem_of_map_to_list. rewrite Hl. by left. }
    apply objects_filter_lookup in Hin as [Hk Hm].
    pose proof (keyed_report_filter db admin k n Hkeyed Hk Hm) as Hf.
    rewrite Hf, map_to_list_singleton in Hl. injection Hl as <-.
    exists k, (link_report r n).
    unfold related_reports_add. unfold_M. simpl. rewrite Hk.
    apply matches_report_kw in Hm as [Hu Ht].
    repeat split; [by destruct n | by destruct n |].
    simpl. apply elem_of_union_l. by apply elem_of_singleton.
Qed.

Lemma report_loop r (l : list User) db :
  keyed db →
  ∃ db',
    for_each l (λ admin,
      '(notification, _) ← get_or_create no_faults admin report_kw;
      related_reports_add no_faults notification r) db = (db', Ok ())
    ∧ (∀ a, a ∈ l →
         ∃ k n, db' !! k = Some n ∧ user n = user_pk a
                ∧ notification_type n = REPORT ∧ report_pk r ∈ related_reports n
                ∧ fetched_or_created r a db k n)
    ∧ (∀ k n, db !! k = Some n →
         db' !! k = Some n ∨ db' !! k = Some (link_report r n))
    ∧ no_gain (λ n, notification_type n ≠ REPORT ∨ ∀ a, a ∈ l → user n ≠ user_pk a)
        db db'.
Proof.
  revert db. induction l as [|a l IH]; intros db Hkeyed.
  - exists db. split; [done |]. split; [| split; [by left | done]].
    intros a Ha. by apply elem_of_nil in Ha.
  - destruct (report_body_step r a db Hkeyed) as (k & n1 & Hbody & Hu & Ht & Hr & Hold).
    assert (Hkeyed1 : keyed (<[k := n1]> db)).
    { pose proof (keyed_report_body no_faults r a db Hkeyed) as H.
      rewrite Hbody in H. by apply H. }
    assert (Hn1 : link_report r n1 = n1).
    { unfold fetched_or_created in Hold.
      destruct (db !! k); subst n1; apply link_report_twice. }
    destruct (IH _ Hkeyed1) as (db' & Hloop & Hrows & Hgrow & Hframe).
    exists db'. split; [| split; [| split]].
    + simpl. by erewrite step_ok_bind by exact Hbody.
    + intros a' Ha'. apply elem_of_cons in Ha' as [-> | Ha'].
      * exists k, n1. split; [| done].
        destruct (Hgrow k n1 (lookup_insert_eq _ _ _)) as [Hk | Hk]; [done |].
        by rewrite Hn1 in Hk.
      * destruct (Hrows a' Ha') as (k' & n' & Hk' & Hu' & Ht' & Hr' & Hold').
        exists k', n'. repeat (split; [done |]).
        unfold fetched_or_created in *.
        destruct (decide (k' = k)) as [-> | Hne];
          [| by rewrite lookup_insert_ne in Hold'].
        rewrite lookup_insert_eq in Hold'. rewrite Hn1 in Hold'. subst n'.
        destruct (db !! k); [done |]. rewrite Hold. unfold new_row. simpl.
        by rewrite <- Hu', Hu.
    + intros j m Hj. destruct (decide (j = k)) as [-> | Hne].
      * unfold fetched_or_created in Hold. rewrite Hj in Hold.
        destruct (Hgrow k n1 (lookup_insert_eq _ _ _)) as [Hk | Hk].
        -- right. by rewrite <- Hold.
        -- right. by rewrite Hn1, Hold in Hk.
      * apply Hgrow. by rewrite lookup_insert_ne.
    + intros j m Hj HP.
      assert (Hj1 : <[k := n1]> db !! j = Some m).
      { apply (Hframe j m Hj). destruct HP as [HP | HP]; [by left | right].
        intros a' Ha'. apply HP. by right. }
      apply lookup_insert_Some in Hj1 as [[<- <-] | [_ Hj1]]; [| done].
      destruct HP as [HP | HP]; [done |]. destruct (HP a); [by left | done].
Qed.

Lemma step_raise_bind {A B} (m : M A) (f : A → M B) db db1 e :
  m db = (db1, Raise e) → (m ≫= f) db = (db1, Raise e).
Proof. intros H. unfold mbind, M_bind. by rewrite H. Qed.

Lemma report_row_matches u n :
  user n = user_pk u → notification_type n = REPORT → matches u report_kw n = true.
Proof. intros. by apply matches_report_kw. Qed.

(** One turn of the loop for an admin who has at most one REPORT row: that
    row, or a new one if there is none, gets the report. *)
Lemma report_body_unique r admin db :
  one_report_row admin db →
  ∃ k n1,
    ('(notification, _) ← get_or_create no_faults admin report_kw;
     related_reports_add no_faults notification r) db = (<[k := n1]> db, Ok ())
    ∧ user n1 = user_pk admin ∧ notification_type n1 = REPORT
    ∧ report_pk r ∈ related_reports n1
    ∧ fetched_or_created r admin db k n1
    ∧ (∀ k0 n0, db !! k0 = Some n0 → user n0 = user_pk admin →
         notification_type n0 = REPORT → k0 = k).
Proof.
  intros Huniq. unfold fetched_or_created, mbind, M_bind.
  rewrite get_or_create_eq. simpl.
  destruct (map_to_list (objects_filter (matches admin report_kw) db))
    as [|[k n] l] eqn:Hl.
  - exists (next_pk db), (link_report r (new_row admin REPORT report_kw)).
    unfold related_reports_add. unfold_M. simpl.
    rewrite lookup_insert_eq, insert_insert_eq, next_pk_fresh.
    split; [done |]. split; [done |]. split; [done |].
    split; [simpl; apply elem_of_union_l; by apply elem_of_singleton |].
    split; [done |]. intros k0 n0 Hk0 Hu Ht. exfalso.
    apply map_to_list_empty_iff in Hl.
    pose proof (proj1 (objects_filter_empty _ _) Hl k0 n0 Hk0) as Hno.
    by rewrite report_row_matches in Hno.
  - assert (Hin : objects_filter (matches admin report_kw) db !! k = Some n).
    { apply elem_of_map_to_list. rewrite Hl. by left. }
    apply objects_filter_lookup in Hin as [Hk Hm].
    pose proof Hm as Hm'. apply matches_report_kw in Hm' as [Hu Ht].
    assert (Hf : objects_filter (matches admin report_kw) db = {[k := n]}).
    { apply filter_unique; [done | done |]. intros k' n' Hk' Hmk'.
      apply matches_report_kw in Hmk' as [Hu' Ht'].
      by apply (Huniq k' k n' n). }
    rewrite Hf, map_to_list_singleton in Hl. injection Hl as <-.
    exists k, (link_report r n).
    unfold related_reports_add. unfold_M. simpl. rewrite Hk.
    split; [done |]. split; [by destruct n |]. split; [by destruct n |].
    split; [simpl; apply elem_of_union_l; by apply elem_of_singleton |].
    split; [done |]. intros k0 n0 Hk0 Hu0 Ht0. by apply (Huniq k0 k n0 n).
Qed.

Lemma one_report_row_insert u (db : DB) k n1 :
  notification_type n1 = REPORT →
  (∀ k0 n0, db !! k0 = Some n0 → user n0 = user n1 →
     notification_type n0 = REPORT → k0 = k) →
  one_report_row u db → one_report_row u (<[k := n1]> db).
Proof.
  intros Ht1 Hat Huniq k1 k2 m1 m2 H1 H2 Hu1 Hty1 Hu2 Hty2.
  apply lookup_insert_Some in H1 as [[<- <-] | [Hne1 H1]];
    apply lookup_insert_Some in H2 as [[<- <-] | [Hne2 H2]]; [done | | |].
  - symmetry. apply (Hat k2 m2); [done | congruence | done].
  - apply (Hat k1 m1); [done | congruence | done].
  - by apply (Huniq k1 k2 m1 m2).
Qed.

Lemma report_loop_unique r (l : list User) db :
  (∀ a, a ∈ l → one_report_row a db) →
  ∃ db',
    for_each l (λ admin,
      '(notification, _) ← get_or_create no_faults admin report_kw;
      related_reports_add no_faults notification r) db = (db', Ok ())
    ∧ (∀ a, a ∈ l →
         ∃ k n, db' !! k = Some n ∧ user n = user_pk a
                ∧ notification_type n = REPORT ∧ report_pk r ∈ related_reports n
                ∧ fetched_or_created r a db k n)
    ∧ (∀ k n, db !! k = Some n →
         db' !! k = Some n ∨ db' !! k = Some (link_report r n))
    ∧ no_gain (λ n, notification_type n ≠ REPORT ∨ ∀ a, a ∈ l → user n ≠ user_pk a)
        db db'
    ∧ (∀ u, one_report_row u db → one_report_row u db').
Proof.
  revert db. induction l as [|a l IH]; intros db Huniq.
  - exists db. split; [done |]. split; [| split; [by left | done]].
    intros a Ha. by apply elem_of_nil in Ha.
  - destruct (report_body_unique r a db) as (k & n1 & Hbody & Hu & Ht & Hr & Hold & Hat);
      [apply Huniq; by left |].
    assert (Hkeep : ∀ u, one_report_row u db → one_report_row u (<[k := n1]> db)).
    { intros u. apply one_report_row_insert; [done |].
      intros k0 n0 Hk0 Hu0. apply Hat; [done | congruence]. }
    assert (Hn1 : link_report r n1 = n1).
    { unfold fetched_or_created in Hold.
      destruct (db !! k); subst n1; apply link_report_twice. }
    destruct (IH (<[k := n1]> db)) as (db' & Hloop & Hrows & Hgrow & Hframe & Hkeep').
    { intros a' Ha'. apply Hkeep, Huniq. by right. }
    exists db'. split; [| split; [| split; [| split]]].
    + simpl. by erewrite step_ok_bind by exact Hbody.
    + intros a' Ha'. apply elem_of_cons in Ha' as [-> | Ha'].
      * exists k, n1. split; [| done].
        destruct (Hgrow k n1 (lookup_insert_eq _ _ _)) as [Hk | Hk]; [done |].
        by rewrite Hn1 in Hk.
      * destruct (Hrows a' Ha') as (k' & n' & Hk' & Hu' & Ht' & Hr' & Hold').
        exists k', n'. repeat (split; [done |]).
        unfold fetched_or_created in *.
        destruct (decide (k' = k)) as [-> | Hne];
          [| by rewrite lookup_insert_ne in Hold'].
        rewrite lookup_insert_eq in Hold'. rewrite Hn1 in Hold'. subst n'.
        destruct (db !! k); [done |]. rewrite Hold. unfold new_row. simpl.
        by rewrite <- Hu', Hu.
    + intros j m Hj. destruct (decide (j = k)) as [-> | Hne].
      * unfold fetched_or_created in Hold. rewrite Hj in Hold.
        destruct (Hgrow k n1 (lookup_insert_eq _ _ _)) as [Hk | Hk].
        -- right. by rewrite <- Hold.
        -- right. by rewrite Hn1, Hold in Hk.
      * apply Hgrow. by rewrite lookup_insert_ne.
    + intros j m Hj HP.
      assert (Hj1 : <[k := n1]> db !! j = Some m).
      { apply (Hframe j m Hj). destruct HP as [HP | HP]; [by left | right].
        intros a' Ha'. apply HP. by right. }
      apply lookup_insert_Some in Hj1 as [[<- <-] | [_ Hj1]]; [| done].
      destruct HP as [HP | HP]; [done |]. destruct (HP a); [by left | done].
    + intros u Hu0. by apply Hkeep', Hkeep.
Qed.

Lemma several_report_rows_insert u (db : DB) k n1 :
  (∀ n0, db !! k = Some n0 →
     user n1 = user n0 ∧ notification_type n1 = notification_type n0) →
  several_report_rows u db → several_report_rows u (<[k := n1]> db).
Proof.
  intros Hsame (k1 & k2 & m1 & m2 & Hne & H1 & H2 & Hu1 & Ht1 & Hu2 & Ht2).
  assert (Hrow : ∀ j m, db !! j = Some m → user m = user_pk u →
            notification_type m = REPORT →
            ∃ m', <[k := n1]> db !! j = Some m' ∧ user m' = user_pk u
                  ∧ notification_type m' = REPORT).
  { intros j m Hj Hu Ht. destruct (decide (j = k)) as [-> | Hjk].
    - exists n1. rewrite lookup_insert_eq. destruct (Hsame m Hj) as [-> ->]. done.
    - exists m. by rewrite lookup_insert_ne. }
  destruct (Hrow k1 m1 H1 Hu1 Ht1) as (m1' & H1' & Hu1' & Ht1').
  destruct (Hrow k2 m2 H2 Hu2 Ht2) as (m2' & H2' & Hu2' & Ht2').
  exists k1, k2, m1', m2'. done.
Qed.

Lemma report_loop_raises r (l : list User) db :
  (∃ a, a ∈ l ∧ several_report_rows a db) →
  ∃ db1,
    for_each l (λ admin,
      '(notification, _) ← get_or_create no_faults admin report_kw;
      related_reports_add no_faults notification r) db
    = (db1, Raise MultipleObjectsReturned).
Proof.
  revert db. induction l as [|a l IH]; intros db (b & Hb & Hsev).
  { by apply elem_of_nil in Hb. }
  assert (Hfew : ∀ k n, objects_filter (matches a report_kw) db = ∅
                        ∨ objects_filter (matches a report_kw) db = {[k := n]} →
                 b ∈ l).
  { intros k n Hf. apply elem_of_cons in Hb as [-> | Hb]; [exfalso | done].
    destruct Hsev as (k1 & k2 & m1 & m2 & Hne & H1 & H2 & Hu1 & Ht1 & Hu2 & Ht2).
    assert (Hf1 : objects_filter (matches a report_kw) db !! k1 = Some m1)
      by (apply objects_filter_lookup; split; [done | by apply report_row_matches]).
    assert (Hf2 : objects_filter (matches a report_kw) db !! k2 = Some m2)
      by (apply objects_filter_lookup; split; [done | by apply report_row_matches]).
    destruct Hf as [Hf | Hf]; rewrite Hf in Hf1, Hf2.
    - by rewrite lookup_empty in Hf1.
    - apply lookup_singleton_Some in Hf1 as [? _].
      apply lookup_singleton_Some in Hf2 as [? _]. congruence. }
  simpl.
  destruct (map_to_list (objects_filter (matches a report_kw) db))
    as [|[k n] [|]] eqn:Hl.
  - apply map_to_list_empty_iff in Hl as Hf.
    assert (Hbody :
      ('(notification, _) ← get_or_create no_faults a report_kw;
       related_reports_add no_faults notification r) db
      = (<[next_pk db := link_report r (new_row a REPORT report_kw)]> db, Ok ())).
    { unfold mbind, M_bind. rewrite get_or_create_eq. simpl. rewrite Hl.
      unfold related_reports_add. unfold_M. simpl.
      by rewrite lookup_insert_eq, insert_insert_eq. }
    erewrite step_ok_bind by exact Hbody.
    apply IH. exists b. split; [by apply (Hfew 0 empty_links); left |].
    apply several_report_rows_insert; [| exact Hsev].
    intros n0 Hn0. by rewrite next_pk_fresh in Hn0.
  - apply to_list_singleton in Hl as Hf.
    pose proof (objects_filter_singleton_lookup _ _ _ _ Hf) as [Hk _].
    assert (Hbody :
      ('(notification, _) ← get_or_create no_faults a report_kw;
       related_reports_add no_faults notification r) db
      = (<[k := link_report r n]> db, Ok ())).
    { unfold mbind, M_bind. rewrite get_or_create_eq. simpl. rewrite Hl.
      unfold related_reports_add. unfold_M. simpl. by rewrite Hk. }
    erewrite step_ok_bind by exact Hbody.
    apply IH. exists b. split; [by apply (Hfew k n); right |].
    apply several_report_rows_insert; [| exact Hsev].
    intros n0 Hn0. rewrite Hk in Hn0. injection Hn0 as <-. by destruct n.
  - exists db. apply step_raise_bind.
    unfold mbind, M_bind. rewrite get_or_create_eq. simpl. by rewrite Hl.
Qed.

(** C8 fails on a table where an admin has more than one REPORT
    notification: [get_or_create] raises [MultipleObjectsReturned], the
    transaction of the reaction undoes what it had done, and nobody gets
    the report. *)
Lemma report_two_rows :
  notify_admins_on_report no_faults [alice; bob; carol; root] (mkReport 7) two_reports
    = (two_reports, Raise MultipleObjectsReturned)
  ∧ ¬ report_claim [alice; bob; carol; root] (mkReport 7) two_reports.
Proof.
  assert (Hrun : notify_admins_on_report no_faults [alice; bob; carol; root] (mkReport 7)
                   two_reports = (two_reports, Raise MultipleObjectsReturned))
    by (by vm_compute).
  split; [done |]. unfold report_claim. rewrite Hrun. simpl. intros [Hrows _].
  destruct (Hrows bob) as (k & n & Hk & _ & _ & Hr).
  - right. by left.
  - left. exists "moderate_post". split; [by left | right; by left].
  - unfold two_reports in Hk.
    apply lookup_insert_Some in Hk as [[_ <-] | [_ Hk]].
    + simpl in Hr. by apply elem_of_singleton in Hr.
    + apply lookup_singleton_Some in Hk as [_ <-].
      simpl in Hr. by apply elem_of_singleton in Hr.
Qed.

(** C8, amended: when a report is saved and no admin has more than one
    REPORT notification, the reaction returns normally and every user
    with the [moderate_user] or [moderate_post] permission, and every
    superuser, has exactly one REPORT notification afterwards, the one
    they had or, if they had none, a new one, with the report among its
    related reports; every row of before is still there, unchanged or with
    the report added, and the rows of other users, and the rows that are
    not REPORT rows, are the rows of before.  When some admin has more
    than one REPORT notification the reaction raises and leaves the table
    as it was. *)
Theorem report_fan_out db users r :
  ((∀ u, u ∈ users → is_admin u → one_report_row u db) →
   ∃ db',
     notify_admins_on_report no_faults users r db = (db', Ok ())
     ∧ (∀ u, u ∈ users → is_admin u →
          ∃ k n, db' !! k = Some n ∧ user n = user_pk u
                 ∧ notification_type n = REPORT ∧ report_pk r ∈ related_reports n
                 ∧ fetched_or_created r u db k n
                 ∧ (∀ k0 n0, db !! k0 = Some n0 → user n0 = user_pk u →
                      notification_type n0 = REPORT →
                      k0 = k ∧ n = link_report r n0)
                 ∧ (∀ k' n', db' !! k' = Some n' → user n' = user_pk u →
                      notification_type n' = REPORT → k' = k))
     ∧ (∀ k n, db !! k = Some n →
          db' !! k = Some n ∨ db' !! k = Some (link_report r n))
     ∧ no_gain (not_admin_report users) db db')
  ∧ ((∃ u, u ∈ users ∧ is_admin u ∧ several_report_rows u db) →
     notify_admins_on_report no_faults users r db
     = (db, Raise MultipleObjectsReturned)).
Proof.
  split.
  - intros Huniq.
    destruct (report_loop_unique r (admins_query users) db)
      as (db' & Hloop & Hrows & Hgrow & Hframe & Hkeep).
    { intros a Ha. apply elem_of_admins_query in Ha as [Ha Hadm]. by apply Huniq. }
    exists db'. split; [| split; [| split; [done |]]].
    + unfold notify_admins_on_report, atomic.
      rewrite (step_ok_bind _ _ db db ()) by done. cbv zeta. by rewrite Hloop.
    + intros u Hu Hadm.
      destruct (Hrows u) as (k & n & Hk & Hun & Htn & Hr & Hold);
        [by apply elem_of_admins_query |].
      assert (Hone : ∀ k' n', db' !! k' = Some n' → user n' = user_pk u →
                       notification_type n' = REPORT → k' = k).
      { intros k' n' Hk' Hu' Ht'.
        by apply (Hkeep u (Huniq u Hu Hadm) k' k n' n). }
      exists k, n. repeat (split; [done |]). split; [| done].
      intros k0 n0 Hk0 Hu0 Ht0.
      assert (k0 = k) as ->.
      { destruct (Hgrow k0 n0 Hk0) as [Hk' | Hk'].
        - by apply (Hone k0 n0).
        - apply (Hone k0 (link_report r n0)); [done | by destruct n0 ..]. }
      split; [done |]. unfold fetched_or_created in Hold. by rewrite Hk0 in Hold.
    + intros k n Hk HP. apply (Hframe k n Hk).
      destruct HP as [HP | HP]; [by left | right].
      intros a Ha. apply elem_of_admins_query in Ha as [Ha Hadm]. by apply HP.
  - intros (u & Hu & Hadm & Hsev).
    destruct (report_loop_raises r (admins_query users) db) as (db1 & Hloop).
    { exists u. split; [by apply elem_of_admins_query | done]. }
    unfold notify_admins_on_report, atomic.
    rewrite (step_ok_bind _ _ db db ()) by done. cbv zeta. by rewrite Hloop.
Qed.

Lemma report_fan_out_witness :
  (∃ db',
     notify_admins_on_report no_faults [alice; bob; carol; root] (mkReport 6) read_report
       = (db', Ok ())
     ∧ (∀ u, u ∈ [alice; bob; carol; root] → is_admin u →
          ∃ k n, db' !! k = Some n ∧ user n = user_pk u
                 ∧ notification_type n = REPORT ∧ 6 ∈ related_reports n
                 ∧ fetched_or_created (mkReport 6) u read_report k n
                 ∧ (∀ k0 n0, read_report !! k0 = Some n0 → user n0 = user_pk u →
                      notification_type n0 = REPORT →
                      k0 = k ∧ n = link_report (mkReport 6) n0)
                 ∧ (∀ k' n', db' !! k' = Some n' → user n' = user_pk u →
                      notification_type n' = REPORT → k' = k))
     ∧ (∀ k n, read_report !! k = Some n →
          db' !! k = Some n ∨ db' !! k = Some (link_report (mkReport 6) n))
     ∧ no_gain (not_admin_report [alice; bob; carol; root]) read_report db')
  ∧ notify_admins_on_report no_faults [alice; bob; carol; root] (mkReport 7) two_reports
    = (two_reports, Raise MultipleObjectsReturned).
Proof.
  split.
  - apply (proj1 (report_fan_out read_report [alice; bob; carol; root] (mkReport 6))).
    intros u _ _ k1 k2 n1 n2 H1 H2 _ _ _ _. unfold read_report in H1, H2.
    apply lookup_singleton_Some in H1 as [<- _].
    by apply lookup_singleton_Some in H2 as [<- _].
  - apply (proj2 (report_fan_out two_reports [alice; bob; carol; root] (mkReport 7))).
    exists bob. split; [right; by left |]. split.
    + left. exists "moderate_post". split; [by left | right; by left].
    + exists 1, 2, (mkNotification 2 false REPORT ∅ ∅ None None ∅ {[5]}),
        (mkNotification 2 false REPORT ∅ ∅ None None ∅ {[6]}).
      by vm_compute.
Defined.

Example read_report_rows :
  (notify_admins_on_report no_faults [alice; bob; carol; root] (mkReport 6)
     read_report).1
  = <[2 := mkNotification 4 false REPORT ∅ ∅ None None ∅ {[6]}]>
      {[1 := mkNotification 2 true REPORT ∅ ∅ None None ∅ {[5; 6]}]}.
Proof. by vm_compute. Qed.

Example report_rows :
  (notify_admins_on_report no_faults [alice; bob; carol; root] (mkReport 6)
     fav_and_report).1
  = <[3 := mkNotification 4 false REPORT ∅ ∅ None None ∅ {[5; 6]}]>
      (<[2 := mkNotification 2 false REPORT ∅ ∅ None None ∅ {[5; 6]}]>
         {[1 := mkNotification 1 false FAVORITE {[2]} ∅ (Some 10) None ∅ ∅]}).
Proof. by vm_compute. Qed.

(** * Further properties of the module *)

(** ** The favorite and boost reactions are calls of [notify] *)

Lemma atomic_notify fails u ru kw db :
  atomic (notify fails u ru kw) db = notify fails u ru kw db.
Proof.
  unfold notify.
  generalize (if negb (local u) || user_eqb u ru then mret ()
              else '(notification, _) ← get_or_create fails u kw;
                   related_users_add fails notification ru ;;
                   save fails (set_unread true notification)).
  intros m. unfold atomic. by destruct (m db) as [db1 [a|e]].
Qed.

(** The reaction to a saved favorite, and the reaction to a saved boost,
    return what the call of [notify] inside them returns and leave the
    table it leaves: the transaction around the call, and the test on the
    author that the boost reaction makes itself, change nothing. *)
Theorem fav_and_boost_are_notify fails db :
  (∀ instance,
     notify_on_fav fails instance db
     = notify fails (status_user (fav_status instance)) (fav_user instance)
         (status_kw "FAVORITE" (fav_status instance)) db)
  ∧ (∀ instance,
     notify_user_on_boost fails instance db
     = notify fails (status_user (boosted_status instance)) (boost_user instance)
         (status_kw "BOOST" (boosted_status instance)) db).
Proof.
  split; intros instance.
  - unfold notify_on_fav. apply atomic_notify.
  - unfold notify_user_on_boost.
    destruct (negb (local (status_user (boosted_status instance)))
              || user_eqb (status_user (boosted_status instance)) (boost_user instance))
      eqn:Hskip.
    + by rewrite notify_eq, Hskip.
    + apply atomic_notify.
Qed.

(** ** [notify] and [unnotify] together *)

Lemma unlink_link_user ru n :
  user_pk ru ∉ related_users n → unlink_user ru (link_user ru n) = n.
Proof.
  intros Hnot. destruct n. unfold unlink_user, link_user, with_related_users.
  simpl in *. f_equal. apply set_eq. intros x.
  rewrite elem_of_difference, elem_of_union, elem_of_singleton.
  split; [tauto |]. intros Hx. split; [by right | congruence].
Qed.

Lemma unlink_user_twice ru n : unlink_user ru (unlink_user ru n) = unlink_user ru n.
Proof.
  destruct n. unfold unlink_user, with_related_users. simpl. f_equal.
  apply set_eq. intros x. rewrite !elem_of_difference. tauto.
Qed.



(** A related user that [notify] adds to an existing notification is
    taken out again by [unnotify]: when exactly one notification matched,
    it had other related users and not this one, the table after the two
    calls is what it was before. *)
Theorem notify_unnotify_existing u ru kw db k n :
  negb (local u) || user_eqb u ru = false →
  objects_filter (matches u kw) db = {[k := n]} →
  user_pk ru ∉ related_users n → related_users n ≠ ∅ →
  unnotify no_faults u ru kw (notify no_faults u ru kw db).1 = (db, Ok ()).
Proof.
  intros Hgo Hf Hnot Hne.
  pose proof (objects_filter_singleton_lookup _ _ _ _ Hf) as [Hk Hm].
  rewrite notify_eq, Hgo, (filter_singleton_list _ _ _ _ Hf). simpl.
  rewrite unnotify_eq. simpl.
  rewrite objects_filter_insert, Hf, insert_singleton_eq
    by (unfold link_user; by rewrite matches_links).
  rewrite map_to_list_singleton.
  change (related_users (link_user ru n) ∖ {[user_pk ru]})
    with (related_users (unlink_user ru (link_user ru n))).
  rewrite unlink_link_user by done.
  rewrite bool_decide_eq_false_2 by done.
  by rewrite insert_insert_eq, insert_id.
Qed.

Lemma notify_unnotify_existing_witness :
  unnotify no_faults alice root (status_kw "FAVORITE" st1)
    (notify no_faults alice root (status_kw "FAVORITE" st1) one_fav).1
  = (one_fav, Ok ()).
Proof.
  apply (notify_unnotify_existing alice root (status_kw "FAVORITE" st1) one_fav 1
           (mkNotification 1 false FAVORITE {[2]} ∅ (Some 10) None ∅ ∅));
    [done | by vm_compute | |].
  - simpl. intros Hin. by apply elem_of_singleton in Hin.
  - simpl. intros Heq. assert (Hin : 2 ∈ (∅ : gset nat))
      by (rewrite <- Heq; by apply elem_of_singleton).
    by apply not_elem_of_empty in Hin.
Defined.

(** [unnotify] is idempotent: a second call with the same arguments
    returns what the first did and leaves the table the first call left,
    whichever statements the database refuses. *)
Theorem unnotify_idempotent fails u ru kw db :
  unnotify fails u ru kw (unnotify fails u ru kw db).1 = unnotify fails u ru kw db.
Proof.
  rewrite (unnotify_eq fails u ru kw db).
  destruct (fails SGet) eqn:HG; [by rewrite unnotify_eq, HG |].
  destruct (map_to_list (objects_filter (matches u kw) db)) as [|[k n] [|]] eqn:Hl.
  - simpl. by rewrite unnotify_eq, HG, Hl.
  - apply to_list_singleton in Hl as Hf.
    pose proof (objects_filter_singleton_lookup _ _ _ _ Hf) as [Hk Hm].
    assert (Hf1 : map_to_list (objects_filter (matches u kw) (<[k := unlink_user ru n]> db))
                  = [(k, unlink_user ru n)]).
    { rewrite objects_filter_insert, Hf, insert_singleton_eq
        by (unfold unlink_user; by rewrite matches_links).
      apply map_to_list_singleton. }
    assert (Hrow : related_users (unlink_user ru n) ∖ {[user_pk ru]}
                   = related_users n ∖ {[user_pk ru]}).
    { change (related_users (unlink_user ru (unlink_user ru n))
              = related_users (unlink_user ru n)).
      by rewrite unlink_user_twice. }
    destruct (fails SRemove) eqn:HR; [simpl; by rewrite unnotify_eq, HG, Hl, HR |].
    destruct (fails SExists) eqn:HE.
    { simpl. rewrite unnotify_eq, HG, Hf1, HR, HE.
      by rewrite unlink_user_twice, insert_insert_eq. }
    destruct (bool_decide (related_users n ∖ {[user_pk ru]} = ∅)) eqn:Hempty.
    + destruct (fails SDelete) eqn:HD.
      * simpl. rewrite unnotify_eq, HG, Hf1, HR, HE, Hrow, Hempty, HD.
        by rewrite unlink_user_twice, insert_insert_eq.
      * simpl. rewrite unnotify_eq, HG.
        assert (Hnone : objects_filter (matches u kw) (delete k db) = ∅).
        { unfold objects_filter. rewrite map_filter_delete.
          fold (objects_filter (matches u kw) db). rewrite Hf.
          apply delete_singleton_eq. }
        by rewrite (filter_empty_list _ _ Hnone).
    + simpl. rewrite unnotify_eq, HG, Hf1, HR, HE, Hrow, Hempty.
      by rewrite unlink_user_twice, insert_insert_eq.
  - simpl. by rewrite unnotify_eq, HG, Hl.
Qed.

(** [unnotify] never creates a notification and never touches a
    notification its lookup does not match: every row after the call is a
    row of before, either unchanged or, if it matched (user, filters), with
    the related user taken out, whichever statements the database
    refuses. *)
Theorem unnotify_never_creates fails u ru kw db k n' :
  (unnotify fails u ru kw db).1 !! k = Some n' →
  ∃ n, db !! k = Some n
       ∧ (n' = n ∨ (n' = unlink_user ru n ∧ matches u kw n = true)).
Proof.
  rewrite unnotify_eq.
  destruct (fails SGet); [by eauto |].
  destruct (map_to_list (objects_filter (matches u kw) db)) as [|[k0 n0] [|]] eqn:Hl;
    [by eauto | | by eauto].
  apply to_list_singleton, objects_filter_singleton_lookup in Hl as [Hk0 Hm].
  assert (Hup : <[k0 := unlink_user ru n0]> db !! k = Some n' →
                ∃ n, db !! k = Some n
                     ∧ (n' = n ∨ (n' = unlink_user ru n ∧ matches u kw n = true))).
  { intros H. apply lookup_insert_Some in H as [[<- <-] | [_ H]]; by eauto. }
  destruct (fails SRemove); [by eauto |].
  destruct (fails SExists); [done |].
  destruct (bool_decide _); [| done].
  destruct (fails SDelete); [done |]. simpl.
  intros H. apply lookup_delete_Some in H as [_ H]. by eauto.
Qed.

Lemma unnotify_never_creates_witness :
  ∃ n, two_favs !! 2 = Some n
       ∧ (mkNotification 1 false FAVORITE {[2]} ∅ (Some 11) None ∅ ∅ = n
          ∨ (mkNotification 1 false FAVORITE {[2]} ∅ (Some 11) None ∅ ∅ = unlink_user bob n
             ∧ matches alice (status_kw "FAVORITE" st1) n = true)).
Proof.
  apply (unnotify_never_creates no_faults alice bob (status_kw "FAVORITE" st1) two_favs 2).
  by vm_compute.
Defined.

(** [notify] never deletes a notification and never rewrites one: every
    row of before is still there after the call, unchanged or, if it
    matched (user, filters), with the related user added; and the call
    adds at most one row.  This holds whichever statements the database
    refuses. *)
Theorem notify_never_deletes fails u ru kw db :
  (∀ k n, db !! k = Some n →
     (notify fails u ru kw db).1 !! k = Some n
     ∨ ((notify fails u ru kw db).1 !! k = Some (link_user ru n)
        ∧ matches u kw n = true))
  ∧ size (notify fails u ru kw db).1 ≤ S (size db).
Proof.
  destruct (notify_effect fails u ru kw db)
    as [-> | [(k0 & n0 & Hf & ->) | (t & Hf & Ht & ->)]]; simpl.
  - split; [by left | lia].
  - apply objects_filter_singleton_lookup in Hf as [Hk0 Hm]. split.
    + intros k n Hk. destruct (decide (k = k0)) as [-> | Hne].
      * right. rewrite lookup_insert_eq. rewrite Hk in Hk0. by injection Hk0 as ->.
      * left. by rewrite lookup_insert_ne.
    + rewrite map_size_insert_Some by eauto. lia.
  - split.
    + intros k n Hk. left. rewrite lookup_insert_ne; [done |].
      intros Heq. rewrite <- Heq, next_pk_fresh in Hk. done.
    + by rewrite map_size_insert_None by apply next_pk_fresh.
Qed.

Lemma notify_never_deletes_witness :
  (notify save_fails alice root (status_kw "FAVORITE" st1) two_favs).1 !! 2
    = Some (mkNotification 1 false FAVORITE {[2]} ∅ (Some 11) None ∅ ∅)
  ∨ ((notify save_fails alice root (status_kw "FAVORITE" st1) two_favs).1 !! 2
       = Some (link_user root (mkNotification 1 false FAVORITE {[2]} ∅ (Some 11) None ∅ ∅))
     ∧ matches alice (status_kw "FAVORITE" st1)
         (mkNotification 1 false FAVORITE {[2]} ∅ (Some 11) None ∅ ∅) = true).
Proof.
  apply (proj1 (notify_never_deletes save_fails alice root (status_kw "FAVORITE" st1)
                  two_favs) 2).
  by vm_compute.
Defined.

(** ** The reaction to a saved import job *)

(** The reaction fires only on a save of a completed job that names
    [complete] among the updated fields; a save that names no fields never
    fires it.  Each time it fires it adds one notification, also for a user
    who is not local, so [n] such saves of one job add [n] notifications. *)
Theorem import_reaction_counts instance update_fields n db :
  (complete instance = false ∨ "complete" ∉ default [] update_fields →
     ∀ fails, notify_user_on_import_complete fails instance update_fields db = (db, Ok ()))
  ∧ (complete instance = true → "complete" ∈ default [] update_fields →
     size (run (replicate n (ImportJobSaved instance update_fields)) db) = n + size db).
Proof.
  split.
  - intros Hcond fails. unfold notify_user_on_import_complete.
    destruct Hcond as [-> | Hnot]; [done |].
    rewrite bool_decide_eq_false_2 by done. by rewrite orb_true_r.
  - intros Hc Huf. revert db. induction n as [|n IH]; intros db; simpl; [done |].
    rewrite IH. unfold notify_user_on_import_complete.
    rewrite Hc, bool_decide_eq_true_2 by done. simpl.
    unfold objects_create. unfold_M. simpl.
    rewrite map_size_insert_None by apply next_pk_fresh. lia.
Qed.

Lemma import_reaction_counts_witness :
  notify_user_on_import_complete save_fails job1 None one_fav = (one_fav, Ok ())
  ∧ size (run (replicate 3 (ImportJobSaved (mkImportJob 8 carol true) (Some ["complete"])))
            one_fav) = 3 + size one_fav.
Proof.
  split.
  - apply (proj1 (import_reaction_counts job1 None 0 one_fav)). right.
    simpl. apply not_elem_of_nil.
  - apply (proj2 (import_reaction_counts (mkImportJob 8 carol true) (Some ["complete"])
                    3 one_fav)); [done |]. simpl. by left.
Defined.

(** ** The reactions on the tables they produce *)

Global Instance grows_preorder : PreOrder grows.
Proof.
  split.
  - intros db k n Hk. by eauto 10.
  - intros db1 db2 db3 H12 H23 k n Hk.
    destruct (H12 k n Hk) as (n2 & Hk2 & Hu2 & Ht2 & Hs2 & Hr2).
    destruct (H23 k n2 Hk2) as (n3 & Hk3 & Hu3 & Ht3 & Hs3 & Hr3).
    exists n3. repeat split; [done | congruence | congruence | congruence |].
    by etrans.
Qed.

Lemma has_row_grows db db' u t s ru :
  grows db db' → has_row db u t s ru → has_row db' u t s ru.
Proof.
  intros Hg (k & n & Hk & Hu & Ht & Hs & Hr).
  destruct (Hg k n Hk) as (n' & Hk' & Hu' & Ht' & Hs' & Hr').
  exists k, n'. repeat split; [done | congruence | congruence | congruence |].
  by apply Hr'.
Qed.

Lemma grows_insert_new (db : DB) k n : db !! k = None → grows db (<[k := n]> db).
Proof.
  intros Hnone j m Hj. exists m. rewrite lookup_insert_ne by congruence. done.
Qed.

Lemma grows_link_user (db : DB) k n ru :
  db !! k = Some n → grows db (<[k := link_user ru n]> db).
Proof.
  intros Hk j m Hj. destruct (decide (j = k)) as [-> | Hne].
  - rewrite Hk in Hj. injection Hj as <-. exists (link_user ru n).
    rewrite lookup_insert_eq. repeat split; [by destruct n ..|].
    simpl. apply union_subseteq_r.
  - exists m. by rewrite lookup_insert_ne.
Qed.

(** On a table that satisfies the invariant, the filters of the status
    reactions match no row or exactly one. *)
Lemma keyed_status_list db u ty s :
  keyed db → ty ≠ "IMPORT" →
  objects_filter (matches u (status_kw ty s)) db = ∅
  ∨ ∃ k n, objects_filter (matches u (status_kw ty s)) db = {[k := n]}.
Proof.
  intros Hkeyed Hty.
  destruct (map_to_list (objects_filter (matches u (status_kw ty s)) db))
    as [|[k n] l] eqn:Hl.
  - left. by apply map_to_list_empty_iff.
  - right. exists k, n.
    assert (Hin : objects_filter (matches u (status_kw ty s)) db !! k = Some n).
    { apply elem_of_map_to_list. rewrite Hl. by left. }
    apply objects_filter_lookup in Hin as [Hk Hm].
    by apply keyed_status_filter.
Qed.

Lemma value_not_import t : t ≠ IMPORT → value t ≠ "IMPORT".
Proof. intros Ht Hv. apply Ht. by apply value_inj. Qed.

Lemma value_not_report t : t ≠ REPORT → value t ≠ "REPORT".
Proof. intros Ht Hv. apply Ht. by apply value_inj. Qed.

(** On such a table, with no database error, a status reaction's call of
    [notify] returns normally and the related user is on the user's
    notification afterwards. *)
Lemma notify_delivers u ru t s db :
  keyed db → t ≠ IMPORT →
  ∃ db', notify no_faults u ru (status_kw (value t) s) db = (db', Ok ())
    ∧ grows db db'
    ∧ (negb (local u) || user_eqb u ru = false →
       has_row db' (user_pk u) t (status_pk s) (user_pk ru)).
Proof.
  intros Hkeyed Ht. rewrite notify_eq.
  destruct (negb (local u) || user_eqb u ru) eqn:Hskip.
  { exists db. split; [done |]. split; [reflexivity | done]. }
  simpl.
  destruct (keyed_status_list db u (value t) s Hkeyed (value_not_import t Ht))
    as [Hf | (k & n & Hf)].
  - rewrite (filter_empty_list _ _ Hf), value_valid.
    eexists. split; [done |]. split; [apply grows_insert_new, next_pk_fresh |].
    intros _. eexists _, _. rewrite lookup_insert_eq. split; [done |].
    repeat split. simpl. apply elem_of_union_l. by apply elem_of_singleton.
  - rewrite (filter_singleton_list _ _ _ _ Hf).
    apply objects_filter_singleton_lookup in Hf as [Hk Hm].
    apply matches_status_kw in Hm as (Hu & Hty & Hs). apply value_inj in Hty.
    eexists. split; [done |]. split; [by apply grows_link_user |].
    intros _. exists k, (link_user ru n). rewrite lookup_insert_eq.
    repeat split; [by destruct n | by destruct n | by destruct n |].
    simpl. apply elem_of_union_l. by apply elem_of_singleton.
Qed.

(** On the tables the reactions produce, and for the filters the status
    reactions use, [notify] does what C3 says of every call: it is a
    no-op for a user who is not local or is the related user, and
    otherwise the related user is afterwards on a notification that
    matches (user, filters). *)
Theorem notify_claim_reachable db u ru t s :
  reachable db → t ≠ IMPORT →
  notify_claim u ru (status_kw (value t) s) db.
Proof.
  intros Hreach Ht. apply reachable_keyed in Hreach.
  destruct (notify_delivers u ru t s db Hreach Ht) as (db' & Hrun & _ & Hrow).
  unfold notify_claim. rewrite Hrun. simpl.
  destruct (negb (local u) || user_eqb u ru) eqn:Hskip.
  - rewrite notify_eq, Hskip in Hrun. by injection Hrun as <-.
  - destruct (Hrow eq_refl) as (k & n & Hk & Hu & Hty & Hs & Hr).
    exists k, n. split; [done |]. split; [| done].
    apply matches_status_kw. by rewrite Hty.
Qed.

Lemma notify_claim_reachable_witness :
  notify_claim alice root (status_kw "FAVORITE" st1) two_favs.
Proof.
  apply (notify_claim_reachable two_favs alice root FAVORITE st1);
    [apply reachable_run, reachable_empty | done].
Defined.

(** On the tables the reactions produce, and for the filters the status
    reactions use, [unnotify] does what C5 says: a notification that
    matches loses the related user, and is deleted exactly when no related
    user remains. *)
Theorem unnotify_claim_reachable db u ru t s :
  reachable db → t ≠ IMPORT →
  unnotify_claim u ru (status_kw (value t) s) db.
Proof.
  intros Hreach Ht k n Hk Hm. apply reachable_keyed in Hreach.
  pose proof (keyed_status_filter db u (value t) s k n Hreach
                (value_not_import t Ht) Hk Hm) as Hf.
  rewrite unnotify_eq, (filter_singleton_list _ _ _ _ Hf). simpl.
  rewrite bool_decide_decide. destruct (decide _); simpl.
  - apply lookup_delete_eq.
  - apply lookup_insert_eq.
Qed.

Lemma unnotify_claim_reachable_witness :
  unnotify_claim alice bob (status_kw "FAVORITE" st1) two_favs.
Proof.
  apply (unnotify_claim_reachable two_favs alice bob FAVORITE st1);
    [apply reachable_run, reachable_empty | done].
Defined.

Section Loops.

Context {A : Type} (I : DB → Prop) (R : relation DB) `{!PreOrder R}.
Variable Q : A → DB → Prop.

(** A loop whose every turn returns normally, keeps [I], moves the table
    along [R] and establishes [Q] of its element returns normally, with
    [Q] of every element at the end if [R] does not undo [Q]. *)
Lemma for_each_ok (l : list A) (body : A → M unit) :
  (∀ x db, x ∈ l → I db →
     ∃ db', body x db = (db', Ok ()) ∧ I db' ∧ R db db' ∧ Q x db') →
  (∀ x db db', Q x db → R db db' → Q x db') →
  ∀ db, I db →
    ∃ db', for_each l body db = (db', Ok ()) ∧ I db' ∧ R db db'
           ∧ ∀ x, x ∈ l → Q x db'.
Proof.
  intros Hbody Hstable. induction l as [|x l IH]; intros db HI.
  - exists db. repeat split; [done | reflexivity |].
    intros x Hx. by apply elem_of_nil in Hx.
  - destruct (Hbody x db) as (db1 & Hrun & HI1 & HR1 & HQ1); [by left | done |].
    destruct IH with (db := db1) as (db' & Hloop & HI' & HR' & HQ'); [| done |].
    { intros y db2 Hy. apply Hbody. by right. }
    exists db'. split; [| split; [done | split; [by etrans |]]].
    + simpl. by erewrite step_ok_bind by exact Hrun.
    + intros y Hy. apply elem_of_cons in Hy as [-> | Hy]; [| by apply HQ'].
      by apply (Hstable x db1).
Qed.

End Loops.

(** The saved-status reaction on a table that satisfies the invariant,
    for a status that is not deleted and with no database error. *)
Lemma notify_user_on_mention_run instance db :
  keyed db → deleted instance = false →
  ∃ db',
    notify_user_on_mention no_faults true instance db = (db', Ok ())
    ∧ grows db db'
    ∧ (∀ parent, reply_parent instance = Some parent →
         local (status_user parent) = true →
         user_eqb (status_user parent) (status_user instance) = false →
         has_row db' (user_pk (status_user parent)) REPLY (status_pk instance)
           (user_pk (status_user instance)))
    ∧ (∀ m, m ∈ mention_users instance →
         local m = true → is_reply_parent_user instance m = false →
         user_eqb m (status_user instance) = false →
         has_row db' (user_pk m) MENTION (status_pk instance)
           (user_pk (status_user instance))).
Proof.
  intros Hkeyed Hdel.
  assert (Hreply : ∃ db1,
    match reply_parent instance with
    | Some parent =>
        if negb (user_eqb (status_user parent) (status_user instance))
           && local (status_user parent)
        then notify no_faults (status_user parent) (status_user instance)
               (status_kw "REPLY" instance)
        else mret ()
    | None => mret ()
    end db = (db1, Ok ())
    ∧ keyed db1 ∧ grows db db1
    ∧ (∀ parent, reply_parent instance = Some parent →
         local (status_user parent) = true →
         user_eqb (status_user parent) (status_user instance) = false →
         has_row db1 (user_pk (status_user parent)) REPLY (status_pk instance)
           (user_pk (status_user instance)))).
  { destruct (reply_parent instance) as [parent|].
    - destruct (user_eqb (status_user parent) (status_user instance)) eqn:Heq; simpl.
      + exists db. split; [done |]. split; [done |]. split; [reflexivity |].
        intros p Hp _ Hne. injection Hp as <-. congruence.
      + destruct (local (status_user parent)) eqn:Hloc.
        * destruct (notify_delivers (status_user parent) (status_user instance)
                      REPLY instance db Hkeyed) as (db1 & Hrun & Hg & Hrow); [done |].
          exists db1. split; [exact Hrun |]. split; [| split; [done |]].
          -- pose proof (keyed_notify no_faults (status_user parent)
                           (status_user instance) "REPLY" instance db) as Hk.
             simpl in Hrun. rewrite Hrun in Hk. by apply Hk.
          -- intros p Hp _ _. injection Hp as <-. apply Hrow. by rewrite Hloc, Heq.
        * exists db. split; [done |]. split; [done |]. split; [reflexivity |].
          intros p Hp Hl _. injection Hp as <-. congruence.
    - exists db. split; [done |]. split; [done |]. split; [reflexivity | done]. }
  destruct Hreply as (db1 & Hrun1 & Hkeyed1 & Hg1 & Hrow1).
  destruct (for_each_ok keyed grows
    (λ m db', local m = true → is_reply_parent_user instance m = false →
              user_eqb m (status_user instance) = false →
              has_row db' (user_pk m) MENTION (status_pk instance)
                (user_pk (status_user instance)))
    (mention_users instance)
    (λ mention_user,
       if negb (local mention_user) || is_reply_parent_user instance mention_user
       then mret ()
       else notify no_faults mention_user (status_user instance)
              (status_kw "MENTION" instance))) with (db := db1)
    as (db' & Hloop & _ & Hg' & Hrows); [| | done |].
  { intros m db2 _ Hkeyed2.
    destruct (negb (local m) || is_reply_parent_user instance m) eqn:Hskip.
    - exists db2. split; [done |]. split; [done |]. split; [reflexivity |].
      intros Hl Hp _. by rewrite Hl, Hp in Hskip.
    - destruct (notify_delivers m (status_user instance) MENTION instance db2 Hkeyed2)
        as (db3 & Hrun & Hg & Hrow); [done |].
      exists db3. split; [exact Hrun |]. split; [| split; [done |]].
      + pose proof (keyed_notify no_faults m (status_user instance) "MENTION"
                      instance db2) as Hk.
        simpl in Hrun. rewrite Hrun in Hk. by apply Hk.
      + intros Hl _ Hne. apply Hrow. by rewrite Hl, Hne. }
  { intros m db2 db3 HQ Hg Hl Hp Hne. eapply has_row_grows; [done |]. by apply HQ. }
  exists db'. split; [| split; [by etrans | split]].
  - unfold notify_user_on_mention, atomic. simpl. rewrite Hdel.
    erewrite step_ok_bind by exact Hrun1. by rewrite Hloop.
  - intros parent Hp Hl Hne. eapply has_row_grows; [done |]. by apply Hrow1.
  - done.
Qed.

(** When a status that is not deleted is saved, on a table the reactions
    produced and with no database error, the reaction returns normally and
    the notifications are there: the local author of the reply parent, if
    not the author of the status, has a REPLY notification for the status
    that lists the author; so does, with a MENTION notification, every
    mentioned user who is local, is not the author of the reply parent
    and is not the author of the status. *)
Theorem replies_and_mentions_delivered instance db :
  reachable db → deleted instance = false →
  ∃ db',
    notify_user_on_mention no_faults true instance db = (db', Ok ())
    ∧ (∀ parent, reply_parent instance = Some parent →
         local (status_user parent) = true →
         user_eqb (status_user parent) (status_user instance) = false →
         has_row db' (user_pk (status_user parent)) REPLY (status_pk instance)
           (user_pk (status_user instance)))
    ∧ (∀ m, m ∈ mention_users instance →
         local m = true → is_reply_parent_user instance m = false →
         user_eqb m (status_user instance) = false →
         has_row db' (user_pk m) MENTION (status_pk instance)
           (user_pk (status_user instance))).
Proof.
  intros Hreach Hdel. apply reachable_keyed in Hreach.
  destruct (notify_user_on_mention_run instance db Hreach Hdel)
    as (db' & Hrun & _ & Hreply & Hment).
  by exists db'.
Qed.

Lemma replies_and_mentions_delivered_witness :
  ∃ db',
    notify_user_on_mention no_faults true reply1 two_favs = (db', Ok ())
    ∧ has_row db' 1 REPLY 20 2
    ∧ has_row db' 4 MENTION 20 2.
Proof.
  destruct (replies_and_mentions_delivered reply1 two_favs
              (reachable_run _ _ reachable_empty) eq_refl) as (db' & Hrun & Hreply & Hment).
  exists db'. split; [exact Hrun |]. split.
  - apply (Hreply st1); reflexivity.
  - apply (Hment root); [| reflexivity ..]. simpl. right. right. by left.
Defined.

Lemma unnotify_returns u ru ty s db :
  keyed db → ty ≠ "IMPORT" →
  ∃ db', unnotify no_faults u ru (status_kw ty s) db = (db', Ok ()).
Proof.
  intros Hkeyed Hty. rewrite unnotify_eq. simpl.
  destruct (keyed_status_list db u ty s Hkeyed Hty) as [Hf | (k & n & Hf)].
  - rewrite (filter_empty_list _ _ Hf). by eauto.
  - rewrite (filter_singleton_list _ _ _ _ Hf). destruct (bool_decide _); by eauto.
Qed.

(** On a table the reactions produced, and with no database error, no
    reaction raises: each of them returns normally, whatever the event. *)
Theorem reactions_return db e :
  reachable db → ∃ db', react no_faults e db = (db', Ok ()).
Proof.
  intros Hreach. pose proof (reachable_keyed db Hreach) as Hkeyed.
  destruct e as [i | i | b i | i | i | i uf | us i]; simpl.
  - unfold notify_on_fav. rewrite atomic_notify.
    destruct (notify_delivers (status_user (fav_status i)) (fav_user i) FAVORITE
                (fav_status i) db Hkeyed) as (db' & Hrun & _); [done |]. by eauto.
  - unfold notify_on_unfav. destruct (negb _); [by eauto |].
    by apply unnotify_returns.
  - destruct b; [| by eauto]. destruct (deleted i) eqn:Hdel.
    + unfold notify_user_on_mention, atomic, filter_delete. rewrite Hdel. by eauto.
    + destruct (notify_user_on_mention_run i db Hkeyed Hdel) as (db' & Hrun & _).
      by eauto.
  - unfold notify_user_on_boost.
    destruct (negb _ || _); [by eauto |]. rewrite atomic_notify.
    destruct (notify_delivers (status_user (boosted_status i)) (boost_user i) BOOST
                (boosted_status i) db Hkeyed) as (db' & Hrun & _); [done |]. by eauto.
  - by apply unnotify_returns.
  - unfold notify_user_on_import_complete. destruct (negb _ || _); by eauto.
  - destruct (report_loop i (admins_query us) db Hkeyed) as (db' & Hloop & _).
    exists db'. unfold notify_admins_on_report, atomic.
    rewrite (step_ok_bind _ _ db db ()) by done. cbv zeta. by rewrite Hloop.
Qed.

Lemma reactions_return_witness :
  ∃ db', react no_faults (BoostDeleted (mkBoost bob st1)) two_favs = (db', Ok ()).
Proof.
  apply (reactions_return two_favs (BoostDeleted (mkBoost bob st1))).
  apply reachable_run, reachable_empty.
Defined.

(** ** The report reaction, run again *)

Lemma link_report_id r n : report_pk r ∈ related_reports n → link_report r n = n.
Proof.
  intros Hin. destruct n. unfold link_report, with_related_reports. simpl in *.
  f_equal. apply set_eq. intros x. rewrite elem_of_union, elem_of_singleton.
  split; [intros [-> | ?]; done | by right].
Qed.

Lemma report_loop_fixed r (l : list User) db :
  keyed db →
  (∀ a, a ∈ l →
     ∃ k n, db !! k = Some n ∧ user n = user_pk a
            ∧ notification_type n = REPORT ∧ report_pk r ∈ related_reports n) →
  for_each l (λ admin,
    '(notification, _) ← get_or_create no_faults admin report_kw;
    related_reports_add no_faults notification r) db = (db, Ok ()).
Proof.
  intros Hkeyed. induction l as [|a l IH]; intros Hrows; [done |].
  destruct (Hrows a) as (k & n & Hk & Hu & Ht & Hr); [by left |].
  assert (Hm : matches a report_kw n = true) by (by apply matches_report_kw).
  assert (Hbody :
    ('(notification, _) ← get_or_create no_faults a report_kw;
     related_reports_add no_faults notification r) db = (db, Ok ())).
  { unfold mbind, M_bind. rewrite get_or_create_eq. simpl.
    rewrite (filter_singleton_list _ _ _ _
               (keyed_report_filter db a k n Hkeyed Hk Hm)).
    unfold related_reports_add. unfold_M. simpl. rewrite Hk.
    by rewrite link_report_id, insert_id. }
  simpl. erewrite step_ok_bind by exact Hbody.
  apply IH. intros a' Ha'. apply Hrows. by right.
Qed.

(** Handling the same report a second time changes nothing: on a table
    the reactions produced and with no database error, the reaction run
    again on the table it left returns normally and leaves that table. *)
Theorem report_reaction_idempotent db users r :
  reachable db →
  notify_admins_on_report no_faults users r
    (notify_admins_on_report no_faults users r db).1
  = ((notify_admins_on_report no_faults users r db).1, Ok ()).
Proof.
  intros Hreach.
  assert (Hkeyed' : keyed (notify_admins_on_report no_faults users r db).1).
  { apply reachable_keyed.
    apply (reachable_step no_faults (ReportSaved users r) db Hreach). }
  apply reachable_keyed in Hreach.
  destruct (report_loop r (admins_query users) db Hreach)
    as (db' & Hloop & Hrows & _ & _).
  assert (Hfirst : notify_admins_on_report no_faults users r db = (db', Ok ())).
  { unfold notify_admins_on_report, atomic.
    rewrite (step_ok_bind _ _ db db ()) by done. cbv zeta. by rewrite Hloop. }
  rewrite Hfirst in *. simpl in *.
  unfold notify_admins_on_report, atomic.
  rewrite (step_ok_bind _ _ db' db' ()) by done. cbv zeta.
  rewrite (report_loop_fixed r (admins_query users) db' Hkeyed'); [done |].
  intros a Ha. destruct (Hrows a Ha) as (k & n & Hk & Hu & Ht & Hr & _).
  by eauto 10.
Qed.

Lemma report_reaction_idempotent_witness :
  notify_admins_on_report no_faults [alice; bob; carol; root] (mkReport 6)
    (notify_admins_on_report no_faults [alice; bob; carol; root] (mkReport 6) two_favs).1
  = ((notify_admins_on_report no_faults [alice; bob; carol; root] (mkReport 6) two_favs).1,
     Ok ()).
Proof.
  apply (report_reaction_idempotent two_favs [alice; bob; carol; root] (mkReport 6)).
  apply reachable_run, reachable_empty.
Defined.

(** ** What the notifications on a reachable table look like *)

Lemma all_rows_insert Q (db : DB) k n : Q n → keeps (all_rows Q) db (<[k := n]> db).
Proof.
  intros Hn Hall j m Hj. apply lookup_insert_Some in Hj as [[_ <-] | [_ Hj]];
    [done | by apply (Hall j)].
Qed.

Lemma all_rows_subseteq Q (db db' : DB) : db' ⊆ db → keeps (all_rows Q) db db'.
Proof. intros Hsub Hall j m Hj. apply (Hall j). by eapply lookup_weaken. Qed.

(** [notify] changes the table only when the user and the related user
    differ. *)
Lemma notify_changes fails u ru kw db :
  (notify fails u ru kw db).1 = db
  ∨ (user_eqb u ru = false
     ∧ ((∃ k n, objects_filter (matches u kw) db = {[k := n]}
           ∧ (notify fails u ru kw db).1 = <[k := link_user ru n]> db)
        ∨ (∃ t, notification_type_valid (default "" (kw_notification_type kw)) = Some t
           ∧ (notify fails u ru kw db).1
             = <[next_pk db := link_user ru (new_row u t kw)]> db))).
Proof.
  destruct (negb (local u) || user_eqb u ru) eqn:Hskip.
  { left. by rewrite notify_eq, Hskip. }
  apply orb_false_iff in Hskip as [_ Hne].
  destruct (notify_effect fails u ru kw db)
    as [H | [(k & n & Hf & H) | (t & Hf & Ht & H)]]; [by left | |].
  - right. split; [done |]. left. exists k, n. by rewrite H.
  - right. split; [done |]. right. exists t. by rewrite H.
Qed.

Lemma well_shaped_link_user ru n :
  status_type (notification_type n) → user n ≠ user_pk ru →
  well_shaped n → well_shaped (link_user ru n).
Proof.
  intros Hty Hne (Hr & Hg & Hl & Hself & Hlinks).
  destruct n as [u rd ty rus gs st im lis rps]. unfold well_shaped, links_by_type in *.
  simpl in *. repeat (split; [done |]). split.
  - intros Hin. apply elem_of_union in Hin as [Hin | Hin]; [| done].
    by apply elem_of_singleton in Hin.
  - by destruct Hty as [-> | [-> | [-> | ->]]].
Qed.

Lemma well_shaped_new_row u ru t s :
  status_type t → user_eqb u ru = false →
  well_shaped (link_user ru (new_row u t (status_kw (value t) s))).
Proof.
  intros Hty Hne. apply bool_decide_eq_false in Hne.
  unfold well_shaped, links_by_type. simpl. repeat (split; [done |]). split.
  - intros Hin. apply elem_of_union in Hin as [Hin | Hin].
    + by apply elem_of_singleton in Hin.
    + by apply not_elem_of_empty in Hin.
  - by destruct Hty as [-> | [-> | [-> | ->]]].
Qed.

Lemma well_shaped_unlink_user ru n : well_shaped n → well_shaped (unlink_user ru n).
Proof.
  intros (Hr & Hg & Hl & Hself & Hlinks).
  destruct n as [u rd ty rus gs st im lis rps]. unfold well_shaped, links_by_type in *.
  simpl in *. repeat (split; [done |]). split.
  - intros Hin. by apply elem_of_difference in Hin as [Hin _].
  - assert (Hempty : rus = ∅ → rus ∖ {[user_pk ru]} = ∅).
    { intros ->. apply set_eq. intros x. rewrite elem_of_difference.
      split; [tauto | by intros ?%not_elem_of_empty]. }
    destruct ty; try done.
    + destruct Hlinks as (? & ? & ? & ?). auto.
    + destruct Hlinks as (? & ? & ?). auto.
Qed.

Lemma well_shaped_link_report r n :
  notification_type n = REPORT → well_shaped n → well_shaped (link_report r n).
Proof.
  intros Hty (Hr & Hg & Hl & Hself & Hlinks).
  destruct n as [u rd ty rus gs st im lis rps]. unfold well_shaped, links_by_type in *.
  simpl in *. subst ty. done.
Qed.

Section Shaped.

Variable fails : site → bool.

Lemma shaped_notify u ru t s db :
  status_type t →
  keeps (all_rows well_shaped) db (notify fails u ru (status_kw (value t) s) db).1.
Proof.
  intros Hty Hall.
  destruct (notify_changes fails u ru (status_kw (value t) s) db)
    as [-> | [Hne [(k & n & Hf & ->) | (t' & Ht' & ->)]]]; [done | |].
  - apply objects_filter_singleton_lookup in Hf as [Hk Hm].
    apply matches_status_kw in Hm as (Hu & Hv & _). apply value_inj in Hv.
    apply all_rows_insert; [| done]. apply well_shaped_link_user.
    + by rewrite Hv.
    + rewrite Hu. by apply bool_decide_eq_false in Hne.
    + by apply (Hall k).
  - simpl in Ht'. rewrite value_valid in Ht'. injection Ht' as <-.
    apply all_rows_insert; [| done]. by apply well_shaped_new_row.
Qed.

Lemma shaped_unnotify u ru kw db :
  keeps (all_rows well_shaped) db (unnotify fails u ru kw db).1.
Proof.
  intros Hall. rewrite unnotify_eq. destruct (fails SGet); [done |].
  destruct (map_to_list (objects_filter (matches u kw) db)) as [|[k n] [|]] eqn:Hl;
    [done | | done].
  apply to_list_singleton, objects_filter_singleton_lookup in Hl as [Hk _].
  assert (Hup : all_rows well_shaped (<[k := unlink_user ru n]> db)).
  { apply all_rows_insert; [| done]. apply well_shaped_unlink_user. by apply (Hall k). }
  destruct (fails SRemove); [done |]. destruct (fails SExists); [done |].
  destruct (bool_decide _); [| done]. destruct (fails SDelete); [done |].
  simpl. apply (all_rows_subseteq _ db); [apply delete_subseteq | done].
Qed.

Lemma shaped_notify_user_on_mention sender_is_status instance db :
  keeps (all_rows well_shaped) db
    (notify_user_on_mention fails sender_is_status instance db).1.
Proof.
  unfold notify_user_on_mention. apply step_atomic; [apply _ |].
  destruct (negb sender_is_status); [done |].
  destruct (deleted instance).
  - unfold filter_delete. apply step_bind; [apply _ | apply step_statement, _ |].
    intros _ db1. apply all_rows_subseteq, objects_filter_subseteq.
  - apply step_bind; [apply _ | |].
    + destruct (reply_parent instance) as [parent|]; [| done].
      destruct (negb _ && local _); [| done].
      apply (shaped_notify _ _ REPLY). unfold status_type. tauto.
    + intros _ db1. apply step_for_each; [apply _ |]. intros m db2 _.
      destruct (negb (local m) || is_reply_parent_user instance m); [done |].
      apply (shaped_notify _ _ MENTION). unfold status_type. tauto.
Qed.

Lemma shaped_report_body r admin db :
  keeps (all_rows well_shaped) db
    (('(notification, _) ← get_or_create fails admin report_kw;
      related_reports_add fails notification r) db).1.
Proof.
  intros Hall. unfold mbind, M_bind. rewrite get_or_create_eq.
  destruct (fails SGet); [done |].
  destruct (map_to_list (objects_filter (matches admin report_kw) db))
    as [|[k n] [|]] eqn:Hl; [| | done].
  - destruct (fails SCreate); [done |]. simpl.
    assert (Hnew : well_shaped (new_row admin REPORT report_kw)).
    { unfold well_shaped, links_by_type. simpl.
      repeat split; try done; apply not_elem_of_empty. }
    unfold related_reports_add. unfold_M. simpl.
    destruct (fails SAddReport); simpl; [by apply all_rows_insert |].
    rewrite lookup_insert_eq, insert_insert_eq.
    apply all_rows_insert; [| done]. by apply well_shaped_link_report.
  - apply to_list_singleton, objects_filter_singleton_lookup in Hl as [Hk Hm].
    apply matches_report_kw in Hm as [_ Hty].
    unfold related_reports_add. unfold_M. simpl.
    destruct (fails SAddReport); [done |]. rewrite Hk. simpl.
    apply all_rows_insert; [| done]. apply well_shaped_link_report; [done |].
    by apply (Hall k).
Qed.

Lemma shaped_react e db : keeps (all_rows well_shaped) db (react fails e db).1.
Proof.
  destruct e as [i | i | b i | i | i | i uf | us i]; simpl.
  - unfold notify_on_fav. apply step_atomic; [apply _ |].
    apply (shaped_notify _ _ FAVORITE). unfold status_type. tauto.
  - unfold notify_on_unfav. destruct (negb _); [done |]. apply shaped_unnotify.
  - apply shaped_notify_user_on_mention.
  - unfold notify_user_on_boost. apply step_atomic; [apply _ |].
    destruct (negb _ || _); [done |].
    apply (shaped_notify _ _ BOOST). unfold status_type. tauto.
  - apply shaped_unnotify.
  - unfold notify_user_on_import_complete. destruct (negb _ || _); [done |].
    apply step_bind; [apply _ | | done].
    unfold objects_create. unfold_M. simpl. destruct (fails SCreate); [done |].
    simpl. apply all_rows_insert.
    unfold well_shaped, links_by_type. simpl.
    repeat split; try done; apply not_elem_of_empty.
  - unfold notify_admins_on_report. apply step_atomic; [apply _ |].
    apply step_bind; [apply _ | apply step_statement, _ |].
    intros _ db1. apply step_for_each; [apply _ |]. intros admin db2 _.
    apply shaped_report_body.
Qed.

End Shaped.

Lemma reachable_well_shaped db : reachable db → all_rows well_shaped db.
Proof.
  induction 1 as [|fails e db _ IH]; [by intros k n Hk |].
  by apply shaped_react.
Qed.

(** Nobody is notified of their own action: on every table the reactions
    can produce, whatever the database refused on the way, no notification
    lists its own user among its related users. *)
Theorem no_notification_of_own_action db k n :
  reachable db → db !! k = Some n → user n ∉ related_users n.
Proof.
  intros Hreach Hk.
  by destruct (reachable_well_shaped db Hreach k n Hk) as (_ & _ & _ & Hself & _).
Qed.

Lemma no_notification_of_own_action_witness :
  1 ∉ related_users (mkNotification 1 false FAVORITE {[2]} ∅ (Some 11) None ∅ ∅).
Proof.
  apply (no_notification_of_own_action two_favs 2
           (mkNotification 1 false FAVORITE {[2]} ∅ (Some 11) None ∅ ∅)).
  - apply reachable_run, reachable_empty.
  - by vm_compute.
Defined.

(** The reactions make notifications of six types only, and the type of a
    notification tells its links: a FAVORITE, REPLY, MENTION or BOOST
    notification has a related status and neither import nor reports; an
    IMPORT notification has a related import and nothing else; a REPORT
    notification has neither status, import nor related users.  None has
    groups or list items, and none is marked read by a reaction. *)
Theorem notifications_by_type db k n :
  reachable db → db !! k = Some n →
  links_by_type n ∧ related_groups n = ∅ ∧ related_list_items n = ∅
  ∧ read n = false.
Proof.
  intros Hreach Hk.
  by destruct (reachable_well_shaped db Hreach k n Hk) as (? & ? & ? & _ & ?).
Qed.

Lemma notifications_by_type_witness :
  links_by_type (mkNotification 2 false REPORT ∅ ∅ None None ∅ {[5]})
  ∧ related_groups (mkNotification 2 false REPORT ∅ ∅ None None ∅ {[5]}) = ∅
  ∧ related_list_items (mkNotification 2 false REPORT ∅ ∅ None None ∅ {[5]}) = ∅
  ∧ read (mkNotification 2 false REPORT ∅ ∅ None None ∅ {[5]}) = false.
Proof.
  apply (notifications_by_type fav_and_report 2).
  - apply reachable_run, reachable_empty.
  - by vm_compute.
Defined.

(** ** Reactions that undo or repeat one another *)

Lemma unlink_user_id ru n : user_pk ru ∉ related_users n → unlink_user ru n = n.
Proof.
  intros Hnot. destruct n. unfold unlink_user, with_related_users. simpl in *.
  f_equal. apply set_eq. intros x. rewrite elem_of_difference, elem_of_singleton.
  split; [tauto |]. intros Hx. split; [done | congruence].
Qed.


(** On a table that satisfies the invariant, [unnotify] after [notify]
    gives the table back, if the related user was on no matching
    notification and no matching notification was without related
    users. *)
Lemma notify_unnotify_keyed u ru t s db :
  keyed db → t ≠ IMPORT →
  (∀ k n, db !! k = Some n → matches u (status_kw (value t) s) n = true →
     (user_pk ru ∉ related_users n) ∧ related_users n ≠ ∅) →
  unnotify no_faults u ru (status_kw (value t) s)
    (notify no_faults u ru (status_kw (value t) s) db).1 = (db, Ok ()).
Proof.
  intros Hkeyed Ht Hrows. rewrite notify_eq.
  destruct (keyed_status_list db u (value t) s Hkeyed (value_not_import t Ht))
    as [Hf | (k & n & Hf)].
  - destruct (negb (local u) || user_eqb u ru); simpl.
    + by rewrite unnotify_eq, (filter_empty_list _ _ Hf).
    + rewrite (filter_empty_list _ _ Hf), value_valid. simpl.
      rewrite unnotify_eq. simpl.
      rewrite objects_filter_insert, Hf, insert_empty
        by (unfold link_user; rewrite matches_links; apply matches_new_row;
            simpl; apply value_valid).
      rewrite map_to_list_singleton, bool_decide_eq_true_2.
      * by rewrite delete_insert_id by apply next_pk_fresh.
      * simpl. apply set_eq. intros x.
        rewrite elem_of_difference, elem_of_union, elem_of_singleton.
        split; [tauto | by intros ?%not_elem_of_empty].
  - pose proof (objects_filter_singleton_lookup _ _ _ _ Hf) as [Hk Hm].
    destruct (Hrows k n Hk Hm) as [Hnot Hne].
    destruct (negb (local u) || user_eqb u ru); simpl.
    + rewrite unnotify_eq, (filter_singleton_list _ _ _ _ Hf). simpl.
      change (related_users n ∖ {[user_pk ru]})
        with (related_users (unlink_user ru n)).
      rewrite unlink_user_id by done.
      rewrite bool_decide_eq_false_2 by done. by rewrite insert_id.
    + rewrite (filter_singleton_list _ _ _ _ Hf). simpl.
      rewrite unnotify_eq. simpl.
      rewrite objects_filter_insert, Hf, insert_singleton_eq
        by (unfold link_user; by rewrite matches_links).
      rewrite map_to_list_singleton.
      change (related_users (link_user ru n) ∖ {[user_pk ru]})
        with (related_users (unlink_user ru (link_user ru n))).
      rewrite unlink_link_user by done.
      rewrite bool_decide_eq_false_2 by done.
      by rewrite insert_insert_eq, insert_id.
Qed.

(** A favorite that is saved and then deleted leaves the notifications as
    they were, on a table the reactions produced and with no database
    error, provided the user was not yet on the notification of the
    status and that notification, if there is one, has related users. *)
Theorem fav_then_unfav instance db :
  reachable db →
  (∀ k n, db !! k = Some n →
     matches (status_user (fav_status instance))
       (status_kw "FAVORITE" (fav_status instance)) n = true →
     (user_pk (fav_user instance) ∉ related_users n) ∧ related_users n ≠ ∅) →
  notify_on_unfav no_faults instance (notify_on_fav no_faults instance db).1
  = (db, Ok ()).
Proof.
  intros Hreach Hrows. apply reachable_keyed in Hreach.
  unfold notify_on_fav. rewrite atomic_notify. unfold notify_on_unfav.
  destruct (local (status_user (fav_status instance))) eqn:Hloc; simpl.
  - by apply (notify_unnotify_keyed _ _ FAVORITE).
  - by rewrite notify_eq, Hloc.
Qed.

Lemma fav_then_unfav_witness :
  notify_on_unfav no_faults (mkFavorite root st1)
    (notify_on_fav no_faults (mkFavorite root st1) two_favs).1
  = (two_favs, Ok ()).
Proof.
  apply (fav_then_unfav (mkFavorite root st1) two_favs).
  - apply reachable_run, reachable_empty.
  - intros k n Hk Hm. rewrite two_favs_eq in Hk.
    apply lookup_insert_Some in Hk as [[_ <-] | [_ Hk]]; [done |].
    apply lookup_singleton_Some in Hk as [_ <-]. simpl. split.
    + intros Hin. by apply elem_of_singleton in Hin.
    + intros Heq. assert (Hin : 2 ∈ (∅ : gset nat))
        by (rewrite <- Heq; by apply elem_of_singleton).
      by apply not_elem_of_empty in Hin.
Defined.

(** A boost that is saved and then deleted leaves the notifications as
    they were, under the same conditions; here the author of the boosted
    status need not be local for the deletion to look for a
    notification. *)
Theorem boost_then_unboost instance db :
  reachable db →
  (∀ k n, db !! k = Some n →
     matches (status_user (boosted_status instance))
       (status_kw "BOOST" (boosted_status instance)) n = true →
     (user_pk (boost_user instance) ∉ related_users n) ∧ related_users n ≠ ∅) →
  notify_user_on_unboost no_faults instance
    (notify_user_on_boost no_faults instance db).1
  = (db, Ok ()).
Proof.
  intros Hreach Hrows. apply reachable_keyed in Hreach.
  assert (Hboost : notify_user_on_boost no_faults instance db
    = notify no_faults (status_user (boosted_status instance)) (boost_user instance)
        (status_kw "BOOST" (boosted_status instance)) db).
  { unfold notify_user_on_boost.
    destruct (negb (local (status_user (boosted_status instance)))
              || user_eqb (status_user (boosted_status instance)) (boost_user instance))
      eqn:Hskip; [by rewrite notify_eq, Hskip | apply atomic_notify]. }
  rewrite Hboost. unfold notify_user_on_unboost.
  by apply (notify_unnotify_keyed _ _ BOOST).
Qed.

Lemma boost_then_unboost_witness :
  notify_user_on_unboost no_faults (mkBoost bob st1)
    (notify_user_on_boost no_faults (mkBoost bob st1) two_favs).1
  = (two_favs, Ok ()).
Proof.
  apply (boost_then_unboost (mkBoost bob st1) two_favs).
  - apply reachable_run, reachable_empty.
  - intros k n Hk Hm. rewrite two_favs_eq in Hk.
    apply lookup_insert_Some in Hk as [[_ <-] | [_ Hk]]; [done |].
    by apply lookup_singleton_Some in Hk as [_ <-].
Defined.

(** Once a status has been saved with its deleted flag set, deleting a
    favorite or a boost of that status finds no notification and changes
    nothing. *)
Theorem unfav_after_status_deleted instance db :
  deleted instance = true →
  let db' := (notify_user_on_mention no_faults true instance db).1 in
  (∀ fav, status_pk (fav_status fav) = status_pk instance →
     notify_on_unfav no_faults fav db' = (db', Ok ()))
  ∧ (∀ boost, status_pk (boosted_status boost) = status_pk instance →
     notify_user_on_unboost no_faults boost db' = (db', Ok ())).
Proof.
  intros Hdel db'. subst db'. rewrite notify_user_on_mention_deleted by done. simpl.
  assert (Hnone : ∀ u ty s, status_pk s = status_pk instance →
    map_to_list (objects_filter (matches u (status_kw ty s))
      (objects_filter
         (λ n, negb (bool_decide (related_status n = Some (status_pk instance)))) db))
    = []).
  { intros u ty s Hs. apply filter_empty_list, objects_filter_empty.
    intros k n Hk. apply objects_filter_lookup in Hk as [_ Hp].
    destruct (matches u (status_kw ty s) n) eqn:Hm; [| done].
    apply matches_status_kw in Hm as (_ & _ & Hst). rewrite Hs in Hst.
    by rewrite bool_decide_eq_true_2 in Hp. }
  split.
  - intros fav Hs. unfold notify_on_unfav. destruct (negb _); [done |].
    by rewrite unnotify_eq, Hnone.
  - intros boost Hs. unfold notify_user_on_unboost.
    by rewrite unnotify_eq, Hnone.
Qed.

Lemma unfav_after_status_deleted_witness :
  notify_on_unfav no_faults (mkFavorite bob st1)
    (notify_user_on_mention no_faults true st1_deleted two_favs).1
  = ((notify_user_on_mention no_faults true st1_deleted two_favs).1, Ok ()).
Proof.
  apply (proj1 (unfav_after_status_deleted st1_deleted two_favs eq_refl)
           (mkFavorite bob st1)).
  reflexivity.
Defined.





